(** * tsviz: the data preparer and chart builder of [tsviz/cli.py]

    A shallow embedding of [detect_time_column], [prepare_data],
    [create_plot] and [main], followed by the properties of the
    specification that can be stated on it.

    The program is a thin layer over pandas, plotly and click.  The part of
    those libraries the code relies on is modelled next to the code:
    - a DataFrame is an index and an ordered list of named, typed columns;
    - [pd.to_datetime(series, errors='raise')] converts a whole column or
      raises: timestamps are kept, booleans are refused (TypeError),
      numbers are read as nanoseconds since the epoch, missing values
      become NaT, and every string goes through a string parser which is a
      parameter of the development ([parse_datetime_string]);
    - the file system and the readers ([read_csv], [read_excel]) are a
      record that holds what each call returns for the path at hand. *)

From Stdlib Require Import ZArith QArith List String Ascii Bool Lia.
From Stdlib Require Import DecimalString.
Import ListNotations.
Close Scope Q_scope.
Open Scope string_scope.
Open Scope Z_scope.

Set Implicit Arguments.

(* ================================================================== *)
(** ** Exceptions and results *)

Inductive exn_class :=
| FileNotFoundError
| ValueError
| TypeError
| KeyError
| AttributeError
| OSError.

Record exn := Exn { exn_cls : exn_class; exn_msg : string }.

Inductive result (A : Type) : Type :=
| Ok (a : A)
| Raise (e : exn).

Arguments Ok {A} a.
Arguments Raise {A} e.

Definition bind {A B : Type} (r : result A) (k : A -> result B) : result B :=
  match r with
  | Ok a => k a
  | Raise e => Raise e
  end.

Notation "x <- r ;; k" := (bind r (fun x => k))
  (at level 61, r at next level, right associativity).
Notation "' p <- r ;; k" := (bind r (fun p => k))
  (at level 61, p pattern, r at next level, right associativity).

Definition is_ok {A : Type} (r : result A) : bool :=
  match r with Ok _ => true | Raise _ => false end.

(* ================================================================== *)
(** ** Timestamps and the calendar

    A timestamp is a [datetime64[ns]] value: nanoseconds since
    1970-01-01T00:00:00.  [None] in a timestamp column is NaT. *)

Definition timestamp := Z.

Definition ns_per_second : Z := 1000000000.
Definition ns_per_hour : Z := 3600 * ns_per_second.
Definition ns_per_day : Z := 24 * ns_per_hour.

(** Days since the epoch of a proleptic Gregorian date. *)
Definition days_from_civil (y m d : Z) : Z :=
  let y' := if m <=? 2 then y - 1 else y in
  let era := y' / 400 in
  let yoe := y' - era * 400 in
  let doy := (153 * (if 2 <? m then m - 3 else m + 9) + 2) / 5 + d - 1 in
  let doe := yoe * 365 + yoe / 4 - yoe / 100 + doy in
  era * 146097 + doe - 719468.

(** The Gregorian date (year, month, day) of a day number. *)
Definition civil_from_days (z : Z) : Z * Z * Z :=
  let z' := z + 719468 in
  let era := z' / 146097 in
  let doe := z' - era * 146097 in
  let yoe := (doe - doe / 1460 + doe / 36524 - doe / 146096) / 365 in
  let doy := doe - (365 * yoe + yoe / 4 - yoe / 100) in
  let mp := (5 * doy + 2) / 153 in
  let d := doy - (153 * mp + 2) / 5 + 1 in
  let m := if mp <? 10 then mp + 3 else mp - 9 in
  ((if m <=? 2 then yoe + era * 400 + 1 else yoe + era * 400), m, d).

Record civil := Civil {
  c_year : Z; c_month : Z; c_day : Z;
  c_hour : Z; c_minute : Z; c_second : Z }.

Definition civil_of_timestamp (t : timestamp) : civil :=
  let days := t / ns_per_day in
  let rest := t mod ns_per_day in
  let '(y, m, d) := civil_from_days days in
  Civil y m d (rest / ns_per_hour)
        ((rest mod ns_per_hour) / (60 * ns_per_second))
        ((rest mod (60 * ns_per_second)) / ns_per_second).

Definition timestamp_of_date (y m d : Z) : timestamp :=
  days_from_civil y m d * ns_per_day.

(** [Series.dt.day_name()] on one timestamp; 1970-01-01 was a Thursday. *)
Definition day_names : list string :=
  ["Monday"; "Tuesday"; "Wednesday"; "Thursday"; "Friday"; "Saturday";
   "Sunday"].

Definition weekday (t : timestamp) : Z := (t / ns_per_day + 3) mod 7.

Definition day_name (t : timestamp) : string :=
  nth (Z.to_nat (weekday t)) day_names EmptyString.

(** [pd.date_range(start, periods=n, freq='H')]: [n] timestamps one hour
    apart, the first one [start]. *)
Definition date_range_hourly (start : timestamp) (periods : nat)
  : list (option timestamp) :=
  map (fun i => Some (start + Z.of_nat i * ns_per_hour)) (seq 0 periods).

(* ================================================================== *)
(** ** Columns and tables *)

(** A column holds values of one dtype.  [None] is the missing value of the
    dtypes that have one (NaN for object and float64, NaT for
    datetime64). *)
Inductive series :=
| ObjectSeries (vs : list (option string))
| Int64Series (vs : list Z)
| Float64Series (vs : list (option Q))
| BoolSeries (vs : list bool)
| DatetimeSeries (vs : list (option timestamp)).

Inductive dtype := DObject | DInt64 | DFloat64 | DBool | DDatetime64.

Definition dtype_of (s : series) : dtype :=
  match s with
  | ObjectSeries _ => DObject
  | Int64Series _ => DInt64
  | Float64Series _ => DFloat64
  | BoolSeries _ => DBool
  | DatetimeSeries _ => DDatetime64
  end.

Definition series_len (s : series) : nat :=
  match s with
  | ObjectSeries vs => List.length vs
  | Int64Series vs => List.length vs
  | Float64Series vs => List.length vs
  | BoolSeries vs => List.length vs
  | DatetimeSeries vs => List.length vs
  end.

(** [pd.api.types.is_numeric_dtype]: integers, floats and booleans. *)
Definition is_numeric_dtype (s : series) : bool :=
  match dtype_of s with
  | DInt64 | DFloat64 | DBool => true
  | DObject | DDatetime64 => false
  end.

Definition is_datetime64 (s : series) : bool :=
  match dtype_of s with
  | DDatetime64 => true
  | _ => false
  end.

Definition is_some {A : Type} (o : option A) : bool :=
  match o with Some _ => true | None => false end.

(** [series.notna().any()]: some row holds a value. *)
Definition notna_any (s : series) : bool :=
  match s with
  | ObjectSeries vs => existsb is_some vs
  | Int64Series vs => existsb (fun _ => true) vs
  | Float64Series vs => existsb is_some vs
  | BoolSeries vs => existsb (fun _ => true) vs
  | DatetimeSeries vs => existsb is_some vs
  end.

Record column := Column { cname : string; cdata : series }.

(** The row index: the default [RangeIndex] of the readers, or a
    [DatetimeIndex] with its optional name. *)
Inductive index :=
| RangeIndex (n : nat)
| DatetimeIndex (iname : option string) (ivals : list (option timestamp)).

Record DataFrame := Frame { df_index : index; df_cols : list column }.

Definition index_len (i : index) : nat :=
  match i with
  | RangeIndex n => n
  | DatetimeIndex _ vs => List.length vs
  end.

(** [len(df)] *)
Definition len (df : DataFrame) : nat := index_len (df_index df).

(** [df.columns] *)
Definition columns (df : DataFrame) : list string := map cname (df_cols df).

Definition lookup (name : string) (cols : list column) : option series :=
  option_map cdata (find (fun c => String.eqb (cname c) name) cols).

(** [df[name]]; a [KeyError] when there is no such column.  [str] of a
    [KeyError] is the quoted key. *)
Definition getitem (df : DataFrame) (name : string) : result series :=
  match lookup name (df_cols df) with
  | Some s => Ok s
  | None => Raise (Exn KeyError ("'" ++ name ++ "'"))
  end.

(** [name in df.columns] *)
Definition has_column (df : DataFrame) (name : string) : bool :=
  existsb (String.eqb name) (columns df).

Fixpoint replace_column (name : string) (s : series) (cols : list column)
  : list column :=
  match cols with
  | [] => []
  | c :: rest =>
      if String.eqb (cname c) name then Column name s :: rest
      else c :: replace_column name s rest
  end.

(** [df[name] = s]: the column is replaced where it stands, or appended. *)
Definition setitem (df : DataFrame) (name : string) (s : series)
  : DataFrame :=
  if has_column df name
  then Frame (df_index df) (replace_column name s (df_cols df))
  else Frame (df_index df) (df_cols df ++ [Column name s]).

(** [df.dropna(axis=1, how='all')]: a column stays when one of its rows
    holds a value. *)
Definition dropna_all_columns (df : DataFrame) : DataFrame :=
  Frame (df_index df) (filter (fun c => notna_any (cdata c)) (df_cols df)).

(** [df.reset_index()] turns the index into a first column, named after the
    index, or [index] ([level_0] when [index] is taken), and fails when the
    name is already a column. *)
Definition reset_index (df : DataFrame) : result DataFrame :=
  match df_index df with
  | RangeIndex n =>
      let name := if has_column df "index" then "level_0" else "index" in
      if has_column df name
      then Raise (Exn ValueError ("cannot insert " ++ name ++ ", already exists"))
      else Ok (Frame (RangeIndex n)
                 (Column name (Int64Series (map Z.of_nat (seq 0 n)))
                    :: df_cols df))
  | DatetimeIndex iname vs =>
      let name := match iname with
                  | Some s => s
                  | None => if has_column df "index" then "level_0"
                            else "index"
                  end in
      if has_column df name
      then Raise (Exn ValueError ("cannot insert " ++ name ++ ", already exists"))
      else Ok (Frame (RangeIndex (List.length vs))
                 (Column name (DatetimeSeries vs) :: df_cols df))
  end.

Definition is_datetime_index (i : index) : bool :=
  match i with
  | DatetimeIndex _ _ => true
  | RangeIndex _ => false
  end.

(* ================================================================== *)
(** ** Small string helpers *)

Definition lower_ascii (c : ascii) : ascii :=
  let n := nat_of_ascii c in
  if ((65 <=? n) && (n <=? 90))%nat then ascii_of_nat (n + 32) else c.

(** [str.lower()] on ASCII text. *)
Fixpoint lower (s : string) : string :=
  match s with
  | EmptyString => EmptyString
  | String c rest => String (lower_ascii c) (lower rest)
  end.

(** [sep.join(items)] *)
Definition join (sep : string) (items : list string) : string :=
  String.concat sep items.

Definition is_nil {A : Type} (l : list A) : bool :=
  match l with [] => true | _ :: _ => false end.

(* ================================================================== *)
(** ** The file at the path given to the program

    What the file system and the pandas readers answer for that path:
    [Path.exists()], [Path.suffix], [pd.read_csv(path)],
    [pd.read_csv(path, header=None, names=['value'])] and
    [pd.read_excel(path)]. *)

Record file := File {
  f_path : string;
  f_exists : bool;
  f_suffix : string;
  f_read_csv : result DataFrame;
  f_read_csv_headerless : result DataFrame;
  f_read_excel : result DataFrame }.

(* ================================================================== *)
(** ** [pd.to_datetime], [detect_time_column] and [prepare_data] *)

Section Preparer.

(** The parser pandas applies to one string of an object column: the
    timestamp it denotes, or [None] when the string is not a date. *)
Variable parse_datetime_string : string -> option timestamp.

(** An object column converts when every string in it parses; a missing
    value becomes NaT.  The first string that does not parse raises. *)
Fixpoint parse_objects (vs : list (option string))
  : result (list (option timestamp)) :=
  match vs with
  | [] => Ok []
  | None :: rest => ts <- parse_objects rest ;; Ok (None :: ts)
  | Some s :: rest =>
      match parse_datetime_string s with
      | Some t => ts <- parse_objects rest ;; Ok (Some t :: ts)
      | None =>
          Raise (Exn ValueError
                   ("Unknown datetime string format, unable to parse: " ++ s))
      end
  end.

(** The smallest int64 is the bit pattern of NaT. *)
Definition iNaT : Z := - 2 ^ 63.

Definition int_to_timestamp (z : Z) : option timestamp :=
  if z =? iNaT then None else Some z.

Definition float_to_timestamp (v : option Q) : option timestamp :=
  match v with
  | None => None
  | Some q => Some (Z.quot (Qnum q) (Z.pos (Qden q)))
  end.

(** [pd.to_datetime(s, errors='raise')] *)
Definition to_datetime (s : series) : result series :=
  match s with
  | DatetimeSeries vs => Ok (DatetimeSeries vs)
  | BoolSeries _ =>
      Raise (Exn TypeError "dtype bool cannot be converted to datetime64[ns]")
  | Int64Series vs => Ok (DatetimeSeries (map int_to_timestamp vs))
  | Float64Series vs => Ok (DatetimeSeries (map float_to_timestamp vs))
  | ObjectSeries vs => ts <- parse_objects vs ;; Ok (DatetimeSeries ts)
  end.

(** [df.select_dtypes(include=['datetime64']).columns.tolist()] *)
Definition datetime_cols (df : DataFrame) : list string :=
  map cname (filter (fun c => is_datetime64 (cdata c)) (df_cols df)).

(** The loop of [detect_time_column] over [df.columns]: the first name whose
    column converts.  [ValueError] and [TypeError] are caught and the scan
    goes on. *)
Fixpoint scan_columns (df : DataFrame) (names : list string)
  : option string :=
  match names with
  | [] => None
  | col :: rest =>
      match lookup col (df_cols df) with
      | Some s =>
          if is_ok (to_datetime s) then Some col else scan_columns df rest
      | None => scan_columns df rest
      end
  end.

(** Both last branches of the function return [None]. *)
Definition detect_time_column (df : DataFrame) : option string :=
  match datetime_cols df with
  | c :: _ => Some c
  | [] => scan_columns df (columns df)
  end.

(** Line 54-59: the reader is chosen by the lower-cased suffix. *)
Definition load (f : file) : result DataFrame :=
  if String.eqb (lower (f_suffix f)) ".csv" then f_read_csv f
  else if (String.eqb (lower (f_suffix f)) ".xlsx") || (String.eqb (lower (f_suffix f)) ".xls")
  then f_read_excel f
  else Raise (Exn ValueError ("Unsupported file format: " ++ f_suffix f)).

Definition first_column_numeric (df : DataFrame) : bool :=
  match df_cols df with
  | c :: _ =>
      match lookup (cname c) (df_cols df) with
      | Some s => is_numeric_dtype s
      | None => false
      end
  | [] => false
  end.

(** Line 61-66: detection, and the reload of a one-column CSV without a
    header row. *)
Definition detect_with_fallback (f : file) (df : DataFrame)
  : result (DataFrame * option string) :=
  let time_col := detect_time_column df in
  if negb (is_some time_col)
     && (String.eqb (lower (f_suffix f)) ".csv")
     && (List.length (columns df) =? 1)%nat
     && negb (first_column_numeric df)
  then
    df' <- f_read_csv_headerless f ;;
    Ok (df', detect_time_column df')
  else Ok (df, time_col).

(** [[col for col in df.columns if is_numeric_dtype(df[col])]] *)
Definition numeric_cols (df : DataFrame) : list string :=
  filter (fun col => match lookup col (df_cols df) with
                     | Some s => is_numeric_dtype s
                     | None => false
                     end) (columns df).

(** The first instant of [pd.date_range('2027-01-01', ...)]. *)
Definition synth_start : timestamp := timestamp_of_date 2027 1 1.

(** Line 68-79: what stands in for a time column that was not detected. *)
Definition resolve_time_column (df : DataFrame) (time_col : option string)
  : result (DataFrame * string) :=
  match time_col with
  | Some c => Ok (df, c)
  | None =>
      if is_datetime_index (df_index df) then
        df' <- reset_index df ;;
        match columns df' with
        | c :: _ => Ok (df', c)
        | [] => Raise (Exn KeyError "0")
        end
      else
        match numeric_cols df with
        | [ _ ] =>
            Ok (setitem df "datetime"
                  (DatetimeSeries (date_range_hourly synth_start (len df))),
                "datetime")
        | _ => Raise (Exn ValueError "No datetime column found in the file")
        end
  end.

(** Line 81: [df[time_col] = pd.to_datetime(df[time_col])] *)
Definition coerce_time_column (df : DataFrame) (time_col : string)
  : result DataFrame :=
  s <- getitem df time_col ;;
  t <- to_datetime s ;;
  Ok (setitem df time_col t).

Definition truthy (cols : option (list string)) : bool :=
  match cols with
  | Some (_ :: _) => true
  | _ => false
  end.

Definition missing_cols (df : DataFrame) (cols : list string) : list string :=
  filter (fun col => negb (has_column df col)) cols.

(** Line 85-92 *)
Definition resolve_value_columns (df : DataFrame) (time_col : string)
    (cols : option (list string)) : result (list string) :=
  match cols with
  | Some (c :: cs) =>
      match missing_cols df (c :: cs) with
      | [] => Ok (c :: cs)
      | m :: ms =>
          Raise (Exn ValueError ("Columns not found: " ++ join ", " (m :: ms)))
      end
  | _ =>
      let value_cols :=
        filter (fun col => negb (String.eqb col time_col)) (columns df) in
      Ok (filter (fun col => match lookup col (df_cols df) with
                             | Some s => is_numeric_dtype s
                             | None => false
                             end) value_cols)
  end.

(** Line 68-83: the time column is settled and coerced, then the columns
    that are entirely null are dropped. *)
Definition clean_table (df : DataFrame) (time_col : option string)
  : result (DataFrame * string) :=
  '(df1, tc) <- resolve_time_column df time_col ;;
  df2 <- coerce_time_column df1 tc ;;
  Ok (dropna_all_columns df2, tc).

(** Line 49-83: the table and its time column, before the value columns
    are looked at. *)
Definition prepared_table (f : file) : result (DataFrame * string) :=
  if negb (f_exists f)
  then Raise (Exn FileNotFoundError ("File not found: " ++ f_path f))
  else
    df <- load f ;;
    '(df0, time_col) <- detect_with_fallback f df ;;
    clean_table df0 time_col.

(** Line 85-97 *)
Definition select_value_columns (df : DataFrame) (time_col : string)
    (cols : option (list string))
  : result (DataFrame * string * list string) :=
  value_cols <- resolve_value_columns df time_col cols ;;
  if is_nil value_cols
  then Raise (Exn ValueError "No numeric columns found to plot")
  else Ok (df, time_col, value_cols).

Definition prepare_data (f : file) (cols : option (list string))
  : result (DataFrame * string * list string) :=
  '(df, time_col) <- prepared_table f ;;
  select_value_columns df time_col cols.

End Preparer.

(* ================================================================== *)
(** ** The chart builder: [create_plot] *)

Definition PALETTE_NAMED : list (string * string) :=
  [ ("off_white", "#FDFDFD");
    ("light_sage_gray", "#DBE0D7");
    ("warm_tan", "#BBA178");
    ("muted_sage_green", "#8C9785");
    ("cool_blue_gray", "#BACCCC");
    ("slate_blue_gray", "#5A6876");
    ("charcoal", "#201C1A") ].

(** [PALETTE_NAMED[key]] for the keys the module uses. *)
Definition palette_named (key : string) : string :=
  match find (fun kv => String.eqb (fst kv) key) PALETTE_NAMED with
  | Some kv => snd kv
  | None => EmptyString
  end.

Definition PALETTE_COLORS : list string :=
  [ palette_named "slate_blue_gray";
    palette_named "warm_tan";
    palette_named "cool_blue_gray";
    palette_named "muted_sage_green";
    palette_named "light_sage_gray" ].

(** One value of a column, as plotly receives it. *)
Inductive cell :=
| CNull
| CStr (s : string)
| CInt (z : Z)
| CFloat (q : Q)
| CBool (b : bool)
| CTime (t : timestamp).

Definition opt_cell {A : Type} (f : A -> cell) (o : option A) : cell :=
  match o with Some a => f a | None => CNull end.

Definition cells (s : series) : list cell :=
  match s with
  | ObjectSeries vs => map (opt_cell CStr) vs
  | Int64Series vs => map CInt vs
  | Float64Series vs => map (opt_cell CFloat) vs
  | BoolSeries vs => map CBool vs
  | DatetimeSeries vs => map (opt_cell CTime) vs
  end.

(** [go.Scatter(...)] with the arguments the builder passes. *)
Record trace := Scatter {
  tr_x : series;
  tr_y : series;
  tr_mode : string;
  tr_name : string;
  tr_customdata : option (list (list cell));
  tr_hovertemplate : string;
  tr_line_color : string;
  tr_line_width : Q }.

Record legend := Legend {
  lg_yanchor : string; lg_y : Q;
  lg_xanchor : string; lg_x : Q;
  lg_bgcolor : string; lg_bordercolor : string; lg_borderwidth : Z }.

Record axis := Axis {
  ax_showgrid : bool; ax_gridwidth : Z; ax_gridcolor : string;
  ax_zeroline : bool; ax_rangemode : option string }.

Record layout := Layout {
  ly_title : string;
  ly_xaxis_title : string;
  ly_yaxis_title : string;
  ly_hovermode : string;
  ly_legend : legend;
  ly_plot_bgcolor : string;
  ly_paper_bgcolor : string;
  ly_font_color : string;
  ly_font_family : string;
  ly_xaxis : axis;
  ly_yaxis : axis }.

Record figure := Figure { fig_data : list trace; fig_layout : layout }.

Definition themed_layout : layout :=
  Layout "Time Series Visualization" "Time" "Value" "closest"
    (Legend "top" (99 # 100) "left" (1 # 100)
       "rgba(253, 253, 253, 0.8)" (palette_named "light_sage_gray") 1)
    (palette_named "off_white") (palette_named "off_white")
    (palette_named "charcoal") "Arial, sans-serif"
    (Axis true 1 (palette_named "light_sage_gray") false None)
    (Axis true 1 (palette_named "light_sage_gray") false (Some "tozero")).

(** [fig.update_layout(title=...)] *)
Definition update_title (fig : figure) (t : string) : figure :=
  let l := fig_layout fig in
  Figure (fig_data fig)
    (Layout t (ly_xaxis_title l) (ly_yaxis_title l) (ly_hovermode l)
       (ly_legend l) (ly_plot_bgcolor l) (ly_paper_bgcolor l)
       (ly_font_color l) (ly_font_family l) (ly_xaxis l) (ly_yaxis l)).

(** The [.dt] accessor exists on timestamp columns only. *)
Definition dt (s : series) : result (list (option timestamp)) :=
  match s with
  | DatetimeSeries vs => Ok vs
  | _ =>
      Raise (Exn AttributeError
               "Can only use .dt accessor with datetimelike values")
  end.

(** Line 104: [df[time_col].dt.year.notna().any()] *)
Definition has_year_of (df : DataFrame) (time_col : string) : result bool :=
  s <- getitem df time_col ;;
  vs <- dt s ;;
  Ok (existsb is_some vs).

(** [df[time_col].dt.day_name()]: NaT has no day name. *)
Definition day_name_series (df : DataFrame) (time_col : string)
  : result series :=
  s <- getitem df time_col ;;
  vs <- dt s ;;
  Ok (ObjectSeries (map (option_map day_name) vs)).

(** [df[[name]].values]: one row per table row, of one cell. *)
Definition values1 (df : DataFrame) (name : string)
  : result (list (list cell)) :=
  s <- getitem df name ;;
  Ok (map (fun c => [c]) (cells s)).

Definition hover_head (col : string) : string :=
  ("<b>" ++ col ++ "</b><br>") ++ "Date: %{x|%Y-%m-%d %H:%M:%S}<br>".

Definition hover_day : string := "Day: %{customdata[0]}<br>".

Definition hover_tail : string := "Value: %{y:,.2f}<extra></extra>".

(** The table is a Python object shared with the caller: the builder
    threads it as a state, and an exception leaves it as it was when the
    exception was raised. *)
Definition builder (A : Type) : Type := DataFrame -> result A * DataFrame.

(** Line 112-117 of the loop body. *)
Definition day_of_week_step (time_col : string) (has_year : bool)
  : builder (option (list (list cell)) * string) :=
  fun df =>
    if has_year then
      match day_name_series df time_col with
      | Raise e => (Raise e, df)
      | Ok names =>
          let df' := setitem df "_day_of_week" names in
          match values1 df' "_day_of_week" with
          | Raise e => (Raise e, df')
          | Ok customdata => (Ok (Some customdata, hover_day), df')
          end
      end
    else (Ok (None, EmptyString), df).

(** One turn of the loop at line 106: the trace of [col], at position
    [idx]. *)
Definition plot_series (time_col : string) (has_year : bool) (idx : nat)
    (col : string) : builder trace :=
  fun df =>
    let color :=
      nth (idx mod List.length PALETTE_COLORS) PALETTE_COLORS EmptyString in
    match day_of_week_step time_col has_year df with
    | (Raise e, df') => (Raise e, df')
    | (Ok (customdata, day_line), df') =>
        let hover_template := hover_head col ++ day_line ++ hover_tail in
        match getitem df' time_col with
        | Raise e => (Raise e, df')
        | Ok x =>
            match getitem df' col with
            | Raise e => (Raise e, df')
            | Ok y =>
                (Ok (Scatter x y "lines" col customdata hover_template
                       color (5 # 2)), df')
            end
        end
    end.

Fixpoint plot_loop (time_col : string) (has_year : bool) (idx : nat)
    (value_cols : list string) : builder (list trace) :=
  fun df =>
    match value_cols with
    | [] => (Ok [], df)
    | col :: rest =>
        match plot_series time_col has_year idx col df with
        | (Raise e, df') => (Raise e, df')
        | (Ok t, df') =>
            match plot_loop time_col has_year (S idx) rest df' with
            | (Raise e, df'') => (Raise e, df'')
            | (Ok ts, df'') => (Ok (t :: ts), df'')
            end
        end
    end.

Definition create_plot (time_col : string) (value_cols : list string)
  : builder figure :=
  fun df =>
    match has_year_of df time_col with
    | Raise e => (Raise e, df)
    | Ok has_year =>
        match plot_loop time_col has_year 0 value_cols df with
        | (Raise e, df') => (Raise e, df')
        | (Ok traces, df') => (Ok (Figure traces themed_layout), df')
        end
    end.

(* ================================================================== *)
(** ** The command line: [main] *)

(** [str(n)] *)
Definition str_of_nat (n : nat) : string :=
  NilEmpty.string_of_uint (Nat.to_uint n).

(** The parsed command line: FILE, the repeated [-c], [-o] and [-t]. *)
Record args := Args {
  a_file : string;
  a_columns : list string;
  a_output : option string;
  a_title : option string }.

(** What the process can do to the outside. *)
Inductive event :=
| Stdout (line : string)
| Stderr (line : string)
| WriteHtml (path : string) (fig : figure)
| Show (fig : figure).

Record outcome := Outcome { events : list event; exit_code : Z }.

(** The surroundings of one run: the file behind FILE, and whether
    [fig.write_html] and [fig.show] go through. *)
Record world := World {
  w_file : file;
  w_write_html : string -> figure -> result unit;
  w_show : figure -> result unit }.

Definition nonempty (o : option string) : option string :=
  match o with
  | Some EmptyString => None
  | other => other
  end.

Section Main.

Variable parse_datetime_string : string -> option timestamp.

(** The body of the [try] block, line 186-202: the events so far, and the
    exception that ended it, if any. *)
Definition run (w : world) (a : args) : list event * option exn :=
  let cols := if is_nil (a_columns a) then None else Some (a_columns a) in
  match prepare_data parse_datetime_string (w_file w) cols with
  | Raise e => ([], Some e)
  | Ok (df, time_col, value_cols) =>
      let ev1 :=
        [ Stdout ("Time column: " ++ time_col);
          Stdout ("Plotting columns: " ++ join ", " value_cols);
          Stdout ("Data points: " ++ str_of_nat (len df)) ] in
      match create_plot time_col value_cols df with
      | (Raise e, _) => (ev1, Some e)
      | (Ok fig0, _) =>
          let fig := match nonempty (a_title a) with
                     | Some t => update_title fig0 t
                     | None => fig0
                     end in
          match nonempty (a_output a) with
          | Some path =>
              match w_write_html w path fig with
              | Raise e => (ev1, Some e)
              | Ok _ =>
                  ((ev1 ++ [ WriteHtml path fig;
                             Stdout ("Plot saved to: " ++ path) ])%list,
                   None)
              end
          | None =>
              match w_show w fig with
              | Raise e => (ev1, Some e)
              | Ok _ =>
                  ((ev1 ++ [ Show fig;
                             Stdout "Plot opened in browser" ])%list, None)
              end
          end
      end
  end.

(** What click prints when [click.Path(exists=True)] refuses FILE; the
    process then ends with status 2 and [main] is not entered. *)
Definition usage_error (a : args) : list event :=
  [ Stderr "Usage: tsviz [OPTIONS] FILE";
    Stderr "Try 'tsviz --help' for help.";
    Stderr EmptyString;
    Stderr ("Error: Invalid value for 'FILE': Path '" ++ a_file a
            ++ "' does not exist.") ].

Definition main (w : world) (a : args) : outcome :=
  if negb (f_exists (w_file w)) then Outcome (usage_error a) 2
  else
    match run w a with
    | (ev, None) => Outcome ev 0
    | (ev, Some e) =>
        Outcome (ev ++ [ Stderr ("Error: " ++ exn_msg e) ])%list 1
    end.

End Main.

(* ================================================================== *)
(** ** What "parses as a timestamp" means, value by value *)

Section Parsing.

Variable parse_datetime_string : string -> option timestamp.

(** A value converts to a timestamp: a timestamp, a number or a missing
    value always does, a boolean never, a string when the parser reads
    it. *)
Definition value_parses (c : cell) : bool :=
  match c with
  | CStr s => is_some (parse_datetime_string s)
  | CBool _ => false
  | CNull | CInt _ | CFloat _ | CTime _ => true
  end.

(** Every value of the column converts (and the column is not of the
    boolean dtype, which pandas refuses whatever it holds). *)
Definition column_parses (s : series) : Prop :=
  dtype_of s <> DBool /\ Forall (fun v => value_parses v = true) (cells s).

End Parsing.

(* ================================================================== *)
(** ** A parser instance and sample data

    [parse_iso_date] reads the ten characters of [YYYY-MM-DD]; it is the
    parser of the concrete runs below. *)

Definition digit (c : ascii) : option Z :=
  let n := nat_of_ascii c in
  if ((48 <=? n) && (n <=? 57))%nat then Some (Z.of_nat (n - 48)) else None.

Definition number (ds : list ascii) : option Z :=
  fold_left (fun acc c =>
               match acc, digit c with
               | Some a, Some d => Some (10 * a + d)
               | _, _ => None
               end) ds (Some 0).

Definition parse_iso_date (s : string) : option timestamp :=
  match list_ascii_of_string s with
  | [y1; y2; y3; y4; s1; m1; m2; s2; d1; d2] =>
      if (Ascii.eqb s1 "-" && Ascii.eqb s2 "-")%bool then
        match number [y1; y2; y3; y4], number [m1; m2], number [d1; d2] with
        | Some y, Some m, Some d =>
            if (1 <=? m) && (m <=? 12) && (1 <=? d)
               && (days_from_civil y m d <? days_from_civil y (m + 1) 1)
            then Some (timestamp_of_date y m d) else None
        | _, _, _ => None
        end
      else None
  | _ => None
  end.

(** A reading that the run at hand does not ask for. *)
Definition not_read : result DataFrame :=
  Raise (Exn OSError "not read in this run").

Definition csv_file (path : string) (df : DataFrame) : file :=
  File path true ".csv" (Ok df) not_read not_read.

(** [sales.csv]: a text column, a column of dates, a numeric column. *)
Definition city_col : column :=
  Column "city" (ObjectSeries [Some "Paris"; Some "Rome"]).

Definition date_col : column :=
  Column "date" (ObjectSeries [Some "2024-01-01"; Some "2024-01-02"]).

Definition load_col : column :=
  Column "load" (Float64Series [Some (3 # 2)%Q; Some (5 # 2)%Q]).

Definition sales_table : DataFrame :=
  Frame (RangeIndex 2) [city_col; date_col; load_col].

Definition sales_csv : file := csv_file "sales.csv" sales_table.

(** The dates of [sales.csv], once coerced. *)
Definition sales_dates : list (option timestamp) :=
  [Some (timestamp_of_date 2024 1 1); Some (timestamp_of_date 2024 1 2)].

Definition sales_prepared : DataFrame :=
  Frame (RangeIndex 2)
    [city_col; Column "date" (DatetimeSeries sales_dates); load_col].

(** [gaps.csv]: the cells of the first column are all empty. *)
Definition gaps_table : DataFrame :=
  Frame (RangeIndex 2)
    [ Column "date" (Float64Series [None; None]);
      Column "v" (Int64Series [1; 2]) ].

Definition gaps_csv : file := csv_file "gaps.csv" gaps_table.

(** [flags.csv]: one boolean column and a year of hourly rows. *)
Definition hours_of_year : nat := Z.to_nat 8760.

Definition flags_table : DataFrame :=
  Frame (RangeIndex hours_of_year)
    [Column "flag" (BoolSeries (repeat true hours_of_year))].

Definition flags_csv : file := csv_file "flags.csv" flags_table.

(** [stamped.csv]: the same, the boolean column being headed
    [datetime]. *)
Definition stamped_table : DataFrame :=
  Frame (RangeIndex hours_of_year)
    [Column "datetime" (BoolSeries (repeat true hours_of_year))].

Definition stamped_csv : file := csv_file "stamped.csv" stamped_table.

(** [notes.csv]: as [sales.csv], with a column that holds no value. *)
Definition notes_table : DataFrame :=
  Frame (RangeIndex 2)
    [ city_col; date_col; load_col;
      Column "note" (Float64Series [None; None]) ].

Definition notes_csv : file := csv_file "notes.csv" notes_table.

(** A table whose time column bears the name the builder uses for its
    helper column. *)
Definition clash_table : DataFrame :=
  Frame (RangeIndex 2)
    [ Column "_day_of_week" (DatetimeSeries sales_dates);
      Column "a" (Int64Series [1; 2]);
      Column "b" (Int64Series [3; 4]) ].

(** Six numeric columns next to the dates. *)
Definition wide_table : DataFrame :=
  Frame (RangeIndex 2)
    (Column "date" (DatetimeSeries sales_dates)
     :: map (fun n => Column n (Int64Series [1; 2]))
          ["a"; "b"; "c"; "d"; "e"; "f"]).

(** A time column that holds no timestamp at all. *)
Definition undated_table : DataFrame :=
  Frame (RangeIndex 2)
    [ Column "date" (DatetimeSeries [None; None]);
      Column "v" (Int64Series [1; 2]) ].

(** A run on [sales.csv], and a run on a path that does not exist. *)
Definition sales_world : world :=
  World sales_csv (fun _ _ => Ok tt) (fun _ => Ok tt).

Definition missing_world : world :=
  World (File "nofile.csv" false ".csv" not_read not_read not_read)
    (fun _ _ => Ok tt) (fun _ => Ok tt).

(** The events that put a chart out. *)
Definition is_chart_event (e : event) : bool :=
  match e with
  | WriteHtml _ _ | Show _ => true
  | Stdout _ | Stderr _ => false
  end.

(* ================================================================== *)
(** ** The vocabulary of the properties *)

(** What holds of the value columns of every successful preparation. *)
Definition numeric_disjoint (df : DataFrame) (tc : string)
    (vcs : list string) : Prop :=
  (forall c, In c vcs ->
     exists s, lookup c (df_cols df) = Some s /\ is_numeric_dtype s = true)
  /\ vcs <> []
  /\ ~ In tc vcs.

Definition day_labels (ts : list (option timestamp)) : series :=
  ObjectSeries (map (option_map day_name) ts).

(** The [customdata] of a series: per point, the one-cell row of its
    day of the week, a null cell for NaT. *)
Definition day_rows (ts : list (option timestamp)) : list (list cell) :=
  map (fun v => [opt_cell CStr (option_map day_name v)]) ts.

(** What every series of a finished loop looks like. *)
Definition series_ok (ts : list (option timestamp)) (hy : bool)
    (t : trace) : Prop :=
  tr_customdata t = (if hy then Some (day_rows ts) else None)
  /\ tr_hovertemplate t
     = (hover_head (tr_name t)
        ++ (if hy then hover_day else EmptyString) ++ hover_tail)%string.

(** The table on which detection ran and what it found: the state of
    [prepare_data] after line 66. *)
Definition loaded (parse : string -> option timestamp) (f : file)
    (df : DataFrame) (tcol : option string) : Prop :=
  f_exists f = true
  /\ exists df0,
       load f = Ok df0 /\ detect_with_fallback parse f df0 = Ok (df, tcol).

(** [words.csv]: two columns of text, none a date. *)
Definition words_table : DataFrame :=
  Frame (RangeIndex 2)
    [ city_col; Column "colour" (ObjectSeries [Some "red"; Some "blue"]) ].

Definition words_csv : file := csv_file "words.csv" words_table.

(** [curve.csv]: one column of numbers under a header. *)
Definition curve_table : DataFrame :=
  Frame (RangeIndex 3)
    [ Column "kW" (Float64Series [Some (1 # 2)%Q; Some (3 # 4)%Q; None]) ].

Definition curve_csv : file := csv_file "curve.csv" curve_table.

(** A series drawn from the table: a line of width 2.5 whose points pair
    the time column with the column the series is named after.  The name
    [_day_of_week] is set apart, the builder writes a column of that name
    itself. *)
Definition drawn_from (df : DataFrame) (tc : string) (t : trace) : Prop :=
  tr_mode t = "lines"
  /\ tr_line_width t = (5 # 2)%Q
  /\ (tc <> "_day_of_week" -> lookup tc (df_cols df) = Some (tr_x t))
  /\ (tr_name t <> "_day_of_week" ->
      lookup (tr_name t) (df_cols df) = Some (tr_y t)).


(* ================================================================== *)
(** * Properties *)

Unset Implicit Arguments.
Open Scope list_scope.

(** ** Tables: lookup, assignment, pruning *)

Lemma lookup_cons name c cols :
  lookup name (c :: cols) =
  if String.eqb (cname c) name then Some (cdata c) else lookup name cols.
Proof.
  unfold lookup; simpl. destruct (String.eqb (cname c) name); reflexivity.
Qed.

Lemma lookup_some_in name cols s :
  lookup name cols = Some s -> In (Column name s) cols.
Proof.
  induction cols as [|c cols IH]; [discriminate|].
  rewrite lookup_cons. destruct (String.eqb (cname c) name) eqn:E.
  - intros [= <-]. apply String.eqb_eq in E. subst name.
    left. destruct c; reflexivity.
  - intros H. right. auto.
Qed.

Lemma lookup_none_iff name cols :
  lookup name cols = None <-> ~ In name (map cname cols).
Proof.
  induction cols as [|c cols IH]; simpl.
  - split; [intros _ []|reflexivity].
  - rewrite lookup_cons. destruct (String.eqb (cname c) name) eqn:E.
    + apply String.eqb_eq in E. split; [discriminate|]. intros H; elim H; auto.
    + apply String.eqb_neq in E. rewrite IH. tauto.
Qed.

Lemma lookup_in_nodup cols c :
  NoDup (map cname cols) -> In c cols -> lookup (cname c) cols = Some (cdata c).
Proof.
  induction cols as [|c0 cols IH]; simpl; [tauto|].
  intros Hnd Hin. inversion Hnd as [|? ? Hnotin Hnd']; subst.
  rewrite lookup_cons. destruct Hin as [-> | Hin].
  - rewrite String.eqb_refl. reflexivity.
  - destruct (String.eqb (cname c0) (cname c)) eqn:E.
    + apply String.eqb_eq in E. elim Hnotin. rewrite E. now apply in_map.
    + auto.
Qed.

Lemma nodup_names_inj cols c1 c2 :
  NoDup (map cname cols) -> In c1 cols -> In c2 cols ->
  cname c1 = cname c2 -> c1 = c2.
Proof.
  intros Hnd H1 H2 E.
  pose proof (lookup_in_nodup cols c1 Hnd H1) as L1.
  pose proof (lookup_in_nodup cols c2 Hnd H2) as L2.
  rewrite E in L1. rewrite L1 in L2. injection L2 as L2.
  destruct c1, c2; simpl in *; congruence.
Qed.

Lemma has_column_iff df name :
  has_column df name = true <-> In name (columns df).
Proof.
  unfold has_column. rewrite existsb_exists. split.
  - intros (x & Hin & E). apply String.eqb_eq in E. now subst.
  - intros H. exists name. split; [assumption|apply String.eqb_refl].
Qed.

(** ** Time-column detection *)

Section DetectionFacts.

Variable parse : string -> option timestamp.

Lemma parse_objects_ok_iff vs :
  is_ok (parse_objects parse vs) = true <->
  Forall (fun v => value_parses parse v = true) (map (opt_cell CStr) vs).
Proof.
  induction vs as [|[s|] vs IH]; simpl.
  - split; auto.
  - destruct (parse s) eqn:E.
    + destruct (parse_objects parse vs); simpl in *.
      * split; [intros _|reflexivity]. constructor; [simpl; now rewrite E|].
        now apply IH.
      * split; [discriminate|]. intros H. inversion H; subst. now apply IH.
    + simpl. split; [discriminate|]. intros H. inversion H as [|? ? Hv _].
      simpl in Hv. rewrite E in Hv. discriminate.
  - destruct (parse_objects parse vs); simpl in *.
    + split; [intros _|reflexivity]. constructor; [reflexivity|now apply IH].
    + split; [discriminate|]. intros H. inversion H; subst. now apply IH.
Qed.

Lemma to_datetime_ok_iff s :
  is_ok (to_datetime parse s) = true <-> column_parses parse s.
Proof.
  unfold column_parses. destruct s as [vs|vs|vs|vs|vs]; simpl.
  - destruct (parse_objects parse vs) eqn:E; simpl.
    + split; [intros _|reflexivity]. split; [discriminate|].
      apply parse_objects_ok_iff. now rewrite E.
    + split; [discriminate|]. intros [_ H].
      apply parse_objects_ok_iff in H. now rewrite E in H.
  - split; [intros _|reflexivity]. split; [discriminate|].
    apply Forall_forall. intros v Hv. apply in_map_iff in Hv.
    destruct Hv as (? & <- & _). reflexivity.
  - split; [intros _|reflexivity]. split; [discriminate|].
    apply Forall_forall. intros v Hv. apply in_map_iff in Hv.
    destruct Hv as ([?|] & <- & _); reflexivity.
  - split; [discriminate|]. intros [H _]. now elim H.
  - split; [intros _|reflexivity]. split; [discriminate|].
    apply Forall_forall. intros v Hv. apply in_map_iff in Hv.
    destruct Hv as ([?|] & <- & _); reflexivity.
Qed.

Lemma datetime_values_parse s v :
  is_datetime64 s = true -> In v (cells s) -> value_parses parse v = true.
Proof.
  destruct s as [vs|vs|vs|vs|vs]; try discriminate. simpl. intros _ Hv.
  apply in_map_iff in Hv. destruct Hv as ([?|] & <- & _); reflexivity.
Qed.

Lemma datetime_cols_nil_iff df :
  datetime_cols df = [] <->
  forall c, In c (df_cols df) -> is_datetime64 (cdata c) = false.
Proof.
  unfold datetime_cols. induction (df_cols df) as [|c cols IH]; simpl.
  - split; [intros _ ? []|reflexivity].
  - destruct (is_datetime64 (cdata c)) eqn:E; simpl.
    + split; [discriminate|]. intros H. specialize (H c (or_introl eq_refl)).
      congruence.
    + rewrite IH. split.
      * intros H c' [<-|Hin]; auto.
      * intros H c' Hin. apply H. now right.
Qed.

Lemma datetime_cols_leftmost df pre col post :
  df_cols df = pre ++ col :: post ->
  is_datetime64 (cdata col) = true ->
  (forall c, In c pre -> is_datetime64 (cdata c) = false) ->
  exists rest, datetime_cols df = cname col :: rest.
Proof.
  unfold datetime_cols. intros -> Hcol.
  induction pre as [|c pre IH]; simpl; intros Hpre.
  - rewrite Hcol. simpl. eauto.
  - rewrite (Hpre c (or_introl eq_refl)). apply IH.
    intros c' Hin. apply Hpre. now right.
Qed.

Lemma datetime_cols_head df n rest :
  datetime_cols df = n :: rest ->
  exists c, In c (df_cols df) /\ cname c = n /\ is_datetime64 (cdata c) = true.
Proof.
  unfold datetime_cols. intros H.
  assert (Hin : In n (map cname (filter (fun c => is_datetime64 (cdata c))
                                           (df_cols df)))).
  { rewrite H. now left. }
  apply in_map_iff in Hin. destruct Hin as (c & <- & Hc).
  apply filter_In in Hc. exists c. tauto.
Qed.

(** The scan stops at the first column that converts. *)
Lemma scan_columns_first df pre col post :
  (forall c, In c (pre ++ col :: post) ->
             lookup (cname c) (df_cols df) = Some (cdata c)) ->
  column_parses parse (cdata col) ->
  (forall c, In c pre -> ~ column_parses parse (cdata c)) ->
  scan_columns parse df (map cname (pre ++ col :: post)) = Some (cname col).
Proof.
  intros Hlk Hcol. induction pre as [|c pre IH]; simpl in *; intros Hpre.
  - rewrite (Hlk col (or_introl eq_refl)).
    apply to_datetime_ok_iff in Hcol. now rewrite Hcol.
  - rewrite (Hlk c (or_introl eq_refl)).
    destruct (is_ok (to_datetime parse (cdata c))) eqn:E.
    + apply to_datetime_ok_iff in E. elim (Hpre c (or_introl eq_refl) E).
    + apply IH; intros c' Hin; [apply Hlk|apply Hpre]; now right.
Qed.

Lemma scan_columns_none df cs :
  (forall c, In c cs -> lookup (cname c) (df_cols df) = Some (cdata c)) ->
  (forall c, In c cs -> ~ column_parses parse (cdata c)) ->
  scan_columns parse df (map cname cs) = None.
Proof.
  induction cs as [|c cs IH]; simpl; intros Hlk Hno; [reflexivity|].
  rewrite (Hlk c (or_introl eq_refl)).
  destruct (is_ok (to_datetime parse (cdata c))) eqn:E.
  - apply to_datetime_ok_iff in E. elim (Hno c (or_introl eq_refl) E).
  - apply IH; intros c' Hin; [apply Hlk|apply Hno]; now right.
Qed.

Lemma scan_columns_some df names n :
  scan_columns parse df names = Some n ->
  exists s, lookup n (df_cols df) = Some s /\ column_parses parse s.
Proof.
  induction names as [|col names IH]; simpl; [discriminate|].
  destruct (lookup col (df_cols df)) as [s|] eqn:L; [|exact IH].
  destruct (is_ok (to_datetime parse s)) eqn:E; [|exact IH].
  intros [= <-]. exists s. split; [assumption|].
  now apply to_datetime_ok_iff.
Qed.

(** C1.  Time-column detection: a column already typed as a timestamp wins,
    the leftmost one; without such a column the leftmost column whose every
    value parses as a timestamp is chosen (and none is when no column
    parses); a column that holds a value that does not parse is never
    chosen. *)
Theorem detect_time_column_spec (df : DataFrame)
    (Hnd : NoDup (columns df)) :
  (forall pre col post,
      df_cols df = pre ++ col :: post ->
      is_datetime64 (cdata col) = true ->
      (forall c, In c pre -> is_datetime64 (cdata c) = false) ->
      detect_time_column parse df = Some (cname col))
  /\ ((forall c, In c (df_cols df) -> is_datetime64 (cdata c) = false) ->
      (forall pre col post,
          df_cols df = pre ++ col :: post ->
          column_parses parse (cdata col) ->
          (forall c, In c pre -> ~ column_parses parse (cdata c)) ->
          detect_time_column parse df = Some (cname col))
      /\ ((forall c, In c (df_cols df) -> ~ column_parses parse (cdata c)) ->
          detect_time_column parse df = None))
  /\ (forall col v,
         In col (df_cols df) ->
         In v (cells (cdata col)) ->
         value_parses parse v = false ->
         detect_time_column parse df <> Some (cname col)).
Proof.
  assert (Hlk : forall c, In c (df_cols df) ->
                          lookup (cname c) (df_cols df) = Some (cdata c))
    by (intros c; now apply lookup_in_nodup).
  split; [|split].
  - intros pre col post Hsplit Hcol Hpre. unfold detect_time_column.
    destruct (datetime_cols_leftmost df pre col post Hsplit Hcol Hpre)
      as [rest ->]. reflexivity.
  - intros Hnone. apply datetime_cols_nil_iff in Hnone.
    unfold detect_time_column. rewrite Hnone. unfold columns. split.
    + intros pre col post Hsplit Hcol Hpre. rewrite Hsplit.
      apply scan_columns_first; try assumption.
      intros c Hin. apply Hlk. now rewrite Hsplit.
    + intros Hno. now apply scan_columns_none.
  - intros col v Hcol Hv Hfail Hdet. unfold detect_time_column in Hdet.
    destruct (datetime_cols df) as [|n rest] eqn:D.
    + apply scan_columns_some in Hdet. destruct Hdet as (s & L & _ & Hall).
      rewrite (Hlk col Hcol) in L. injection L as <-.
      rewrite Forall_forall in Hall. rewrite (Hall v Hv) in Hfail.
      discriminate.
    + injection Hdet as ->.
      destruct (datetime_cols_head df (cname col) rest D) as (c & Hc & Hname & Hdt).
      assert (c = col) by (eapply nodup_names_inj; eauto). subst c.
      rewrite (datetime_values_parse (cdata col) v Hdt Hv) in Hfail.
      discriminate.
Qed.

End DetectionFacts.

(** C1 at [sales.csv]: [city] does not parse, [date] does. *)
Lemma detect_time_column_spec_witness :
  NoDup (columns sales_table)
  /\ detect_time_column parse_iso_date sales_table = Some "date".
Proof.
  assert (Hnd : NoDup (columns sales_table)).
  { repeat constructor; simpl; intuition discriminate. }
  split; [exact Hnd|].
  destruct (detect_time_column_spec parse_iso_date sales_table Hnd)
    as (_ & Hscan & _).
  destruct Hscan as [Hfirst _].
  { intros c [<-|[<-|[<-|[]]]]; reflexivity. }
  apply (Hfirst [city_col] date_col [load_col] eq_refl).
  - split; [discriminate|]. repeat constructor.
  - intros c [<-|[]] [_ H]. inversion H as [|? ? Hv _]. discriminate Hv.
Defined.

(** ** Assignment and pruning *)

Lemma lookup_app name l1 l2 :
  lookup name (l1 ++ l2) =
  match lookup name l1 with
  | Some s => Some s
  | None => lookup name l2
  end.
Proof.
  induction l1 as [|c l1 IH]; simpl; [reflexivity|].
  rewrite !lookup_cons. destruct (String.eqb (cname c) name); auto.
Qed.

Lemma lookup_replace_same name s cols :
  In name (map cname cols) ->
  lookup name (replace_column name s cols) = Some s.
Proof.
  induction cols as [|c cols IH]; simpl; [tauto|].
  destruct (String.eqb (cname c) name) eqn:E.
  - intros _. rewrite lookup_cons. simpl. now rewrite String.eqb_refl.
  - intros [H|H]; [apply String.eqb_neq in E; contradiction|].
    rewrite lookup_cons, E. auto.
Qed.

Lemma lookup_replace_other name s cols n :
  n <> name ->
  lookup n (replace_column name s cols) = lookup n cols.
Proof.
  intros Hn. induction cols as [|c cols IH]; simpl; [reflexivity|].
  destruct (String.eqb (cname c) name) eqn:E.
  - apply String.eqb_eq in E. rewrite !lookup_cons. simpl.
    rewrite E. apply String.eqb_neq in Hn. rewrite String.eqb_sym in Hn.
    now rewrite Hn.
  - rewrite !lookup_cons. now rewrite IH.
Qed.

Lemma lookup_setitem_same df name s :
  lookup name (df_cols (setitem df name s)) = Some s.
Proof.
  unfold setitem. destruct (has_column df name) eqn:E; simpl.
  - apply lookup_replace_same. now apply has_column_iff.
  - rewrite lookup_app.
    assert (L : lookup name (df_cols df) = None).
    { apply lookup_none_iff. intros H. apply has_column_iff in H. congruence. }
    rewrite L, lookup_cons. simpl. now rewrite String.eqb_refl.
Qed.

Lemma lookup_setitem_other df name s n :
  n <> name ->
  lookup n (df_cols (setitem df name s)) = lookup n (df_cols df).
Proof.
  intros Hn. unfold setitem. destruct (has_column df name); simpl.
  - now apply lookup_replace_other.
  - rewrite lookup_app. destruct (lookup n (df_cols df)); [reflexivity|].
    rewrite lookup_cons. simpl. apply String.eqb_neq in Hn.
    rewrite String.eqb_sym in Hn. now rewrite Hn.
Qed.

Lemma replace_column_names name s cols :
  map cname (replace_column name s cols) = map cname cols.
Proof.
  induction cols as [|c cols IH]; simpl; [reflexivity|].
  destruct (String.eqb (cname c) name) eqn:E; simpl.
  - apply String.eqb_eq in E. now rewrite E.
  - now rewrite IH.
Qed.

(** Assignment keeps every column that was there. *)
Lemma setitem_keeps_columns df name s n :
  In n (columns df) -> In n (columns (setitem df name s)).
Proof.
  unfold setitem, columns. destruct (has_column df name); simpl.
  - now rewrite replace_column_names.
  - rewrite map_app, in_app_iff. auto.
Qed.

Lemma in_columns_lookup df n :
  In n (columns df) <-> exists s, lookup n (df_cols df) = Some s.
Proof.
  split.
  - intros H. destruct (lookup n (df_cols df)) eqn:L; [eauto|].
    apply lookup_none_iff in L. contradiction.
  - intros [s L]. apply lookup_some_in in L.
    apply (in_map cname) in L. exact L.
Qed.

Lemma setitem_others df name s col :
  In col (df_cols (setitem df name s)) -> cname col <> name ->
  In col (df_cols df).
Proof.
  unfold setitem. destruct (has_column df name); simpl.
  - induction (df_cols df) as [|c cols IH]; simpl; [tauto|].
    destruct (String.eqb (cname c) name).
    + intros [<-|Hin] Hne; [now elim Hne|now right].
    + intros [<-|Hin] Hne; [now left|right; auto].
  - rewrite in_app_iff. intros [Hin|[<-|[]]] Hne; [assumption|].
    now elim Hne.
Qed.

(** A column stays in a pruned table exactly when it holds a value. *)
Lemma dropna_columns df c :
  In c (df_cols (dropna_all_columns df)) <->
  In c (df_cols df) /\ notna_any (cdata c) = true.
Proof. unfold dropna_all_columns; simpl. apply filter_In. Qed.

(** ** Inversion of the preparer's stages *)

Lemma missing_cols_nil df l :
  missing_cols df l = [] -> forall c, In c l -> In c (columns df).
Proof.
  unfold missing_cols. induction l as [|x l IH]; simpl; [tauto|].
  destruct (has_column df x) eqn:E; simpl; [|discriminate].
  intros H c [<-|Hin]; [now apply has_column_iff|auto].
Qed.

Lemma missing_cols_spec df l n :
  In n (missing_cols df l) <-> In n l /\ ~ In n (columns df).
Proof.
  unfold missing_cols. rewrite filter_In, negb_true_iff.
  rewrite <- has_column_iff. destruct (has_column df n); intuition congruence.
Qed.

Section PreparerFacts.

Variable parse : string -> option timestamp.

Lemma prepare_data_inv f cols df tc vcs :
  prepare_data parse f cols = Ok (df, tc, vcs) ->
  prepared_table parse f = Ok (df, tc)
  /\ resolve_value_columns df tc cols = Ok vcs
  /\ vcs <> [].
Proof.
  unfold prepare_data, select_value_columns.
  destruct (prepared_table parse f) as [[df' tc']|e]; simpl; [|discriminate].
  destruct (resolve_value_columns df' tc' cols) as [v|e] eqn:R; simpl;
    [|discriminate].
  destruct v as [|v0 v]; simpl; [discriminate|].
  intros H. inversion H; subst. repeat split; [assumption|discriminate].
Qed.

(** The names found without an explicit request: numeric columns of the
    table, the time column left out. *)
Lemma auto_value_columns df tc cols vcs :
  truthy cols = false ->
  resolve_value_columns df tc cols = Ok vcs ->
  forall c, In c vcs ->
    c <> tc
    /\ In c (columns df)
    /\ exists s, lookup c (df_cols df) = Some s /\ is_numeric_dtype s = true.
Proof.
  intros Hc H c Hin.
  assert (E : vcs =
     filter (fun col => match lookup col (df_cols df) with
                        | Some s => is_numeric_dtype s
                        | None => false
                        end)
       (filter (fun col => negb (String.eqb col tc)) (columns df))).
  { destruct cols as [[|? ?]|]; simpl in *; try discriminate;
      now injection H as <-. }
  subst vcs. apply filter_In in Hin. destruct Hin as [Hin Hnum].
  apply filter_In in Hin. destruct Hin as [Hin Hne].
  apply negb_true_iff, String.eqb_neq in Hne.
  repeat split; try assumption.
  destruct (lookup c (df_cols df)) as [s|]; [eauto|discriminate].
Qed.

(** C2, amended.  Every successful preparation returns a non-empty list of
    value columns, each the name of a column of the returned table.  When
    no column was asked for, each of them is numeric and none is the time
    column; when columns were asked for, the list is the caller's, whatever
    the columns hold. *)
Theorem prepare_data_value_columns f cols df tc vcs :
  prepare_data parse f cols = Ok (df, tc, vcs) ->
  vcs <> []
  /\ (forall c, In c vcs -> In c (columns df))
  /\ (truthy cols = false -> numeric_disjoint df tc vcs)
  /\ (truthy cols = true -> cols = Some vcs).
Proof.
  intros H. apply prepare_data_inv in H. destruct H as (_ & Hres & Hne).
  split; [assumption|]. split; [|split].
  - destruct (truthy cols) eqn:T.
    + destruct cols as [[|x l]|]; try discriminate T.
      unfold resolve_value_columns in Hres.
      destruct (missing_cols df (x :: l)) eqn:M; [|discriminate].
      injection Hres as <-. now apply missing_cols_nil.
    + intros c Hin. now apply (auto_value_columns df tc cols vcs T Hres).
  - intros T. split; [|split; [assumption|]].
    + intros c Hin. now apply (auto_value_columns df tc cols vcs T Hres).
    + intros Hin. now apply (auto_value_columns df tc cols vcs T Hres) in Hin.
  - intros T. destruct cols as [[|x l]|]; try discriminate T.
    unfold resolve_value_columns in Hres.
    destruct (missing_cols df (x :: l)) eqn:M; [|discriminate].
    now injection Hres as <-.
Qed.

End PreparerFacts.

(** C2 at [sales.csv], no column asked for: [load] is the value column. *)
Lemma prepare_data_value_columns_witness :
  prepare_data parse_iso_date sales_csv None
    = Ok (sales_prepared, "date", ["load"])
  /\ numeric_disjoint sales_prepared "date" ["load"].
Proof.
  assert (H : prepare_data parse_iso_date sales_csv None
              = Ok (sales_prepared, "date", ["load"])) by reflexivity.
  split; [exact H|].
  apply (prepare_data_value_columns parse_iso_date sales_csv None
           sales_prepared "date" ["load"] H).
  reflexivity.
Defined.

(** C2 as stated fails once columns are asked for: the request is taken as
    it stands, here the time column itself and a text column. *)
Lemma prepare_data_explicit_not_numeric :
  prepare_data parse_iso_date sales_csv (Some ["date"; "city"])
    = Ok (sales_prepared, "date", ["date"; "city"])
  /\ ~ numeric_disjoint sales_prepared "date" ["date"; "city"].
Proof.
  split; [reflexivity|].
  intros (_ & _ & H). apply H. now left.
Qed.

(** ** Explicit value columns *)

Section ExplicitColumns.

Variable parse : string -> option timestamp.

(** C5.  With explicit column names, on the table as it stands after
    pruning: the absent names are all collected, in the caller's order, and
    when there is one the preparation fails with the error that lists them
    all; when there is none the value columns are the caller's list as
    given. *)
Theorem prepare_data_explicit_columns f c cs df tc :
  prepared_table parse f = Ok (df, tc) ->
  let missing := filter (fun col => negb (has_column df col)) (c :: cs) in
  (forall n, In n missing <-> In n (c :: cs) /\ ~ In n (columns df))
  /\ (missing <> [] ->
      prepare_data parse f (Some (c :: cs))
      = Raise (Exn ValueError
                 ("Columns not found: " ++ join ", " missing)%string))
  /\ (missing = [] ->
      prepare_data parse f (Some (c :: cs)) = Ok (df, tc, c :: cs)).
Proof.
  intros H missing. split; [|split].
  - intros n. apply (missing_cols_spec df (c :: cs) n).
  - intros Hne. unfold prepare_data. rewrite H. simpl.
    unfold select_value_columns, resolve_value_columns.
    change (missing_cols df (c :: cs)) with missing.
    destruct missing as [|m ms]; [now elim Hne|reflexivity].
  - intros He. unfold prepare_data. rewrite H. simpl.
    unfold select_value_columns, resolve_value_columns.
    change (missing_cols df (c :: cs)) with missing.
    rewrite He. reflexivity.
Qed.

End ExplicitColumns.

(** C5 at [sales.csv]: two of three requested names are absent and both are
    reported; a request for present names comes back in the order given. *)
Lemma prepare_data_explicit_columns_witness :
  prepared_table parse_iso_date sales_csv = Ok (sales_prepared, "date")
  /\ prepare_data parse_iso_date sales_csv (Some ["price"; "load"; "tax"])
     = Raise (Exn ValueError "Columns not found: price, tax")
  /\ prepare_data parse_iso_date sales_csv (Some ["load"; "city"])
     = Ok (sales_prepared, "date", ["load"; "city"]).
Proof.
  assert (H : prepared_table parse_iso_date sales_csv
              = Ok (sales_prepared, "date")) by reflexivity.
  split; [exact H|]. split.
  - apply (prepare_data_explicit_columns parse_iso_date sales_csv
             "price" ["load"; "tax"] sales_prepared "date" H).
    discriminate.
  - apply (prepare_data_explicit_columns parse_iso_date sales_csv
             "load" ["city"] sales_prepared "date" H).
    reflexivity.
Defined.

(** ** The time column before and after coercion *)

Section TimeColumnFacts.

Variable parse : string -> option timestamp.

(** The time column handed on by line 61-66 is what detection says of the
    table handed on with it. *)
Lemma detect_with_fallback_inv f df0 df tcol :
  detect_with_fallback parse f df0 = Ok (df, tcol) ->
  tcol = detect_time_column parse df.
Proof.
  unfold detect_with_fallback.
  destruct (negb (is_some (detect_time_column parse df0))
            && String.eqb (lower (f_suffix f)) ".csv"
            && (List.length (columns df0) =? 1)%nat
            && negb (first_column_numeric df0)).
  - destruct (f_read_csv_headerless f); simpl; [|discriminate].
    intros H. now inversion H.
  - intros H. now inversion H.
Qed.

Lemma detect_some_converts df n :
  NoDup (columns df) ->
  detect_time_column parse df = Some n ->
  exists s, lookup n (df_cols df) = Some s
            /\ is_ok (to_datetime parse s) = true.
Proof.
  intros Hnd. unfold detect_time_column.
  destruct (datetime_cols df) as [|m rest] eqn:D.
  - intros H. apply scan_columns_some in H. destruct H as (s & L & P).
    exists s. split; [assumption|]. now apply to_datetime_ok_iff.
  - intros [= ->]. apply datetime_cols_head in D.
    destruct D as (c & Hin & <- & Hdt). exists (cdata c). split.
    + now apply lookup_in_nodup.
    + destruct (cdata c); try discriminate. reflexivity.
Qed.

(** Whatever way the time column was settled, it is a column of the table
    and converts. *)
Lemma resolved_time_column_converts df df1 tc :
  NoDup (columns df) ->
  resolve_time_column df (detect_time_column parse df) = Ok (df1, tc) ->
  exists s, lookup tc (df_cols df1) = Some s
            /\ is_ok (to_datetime parse s) = true.
Proof.
  intros Hnd. unfold resolve_time_column.
  destruct (detect_time_column parse df) as [n|] eqn:D.
  - intros H. inversion H; subst. now apply detect_some_converts.
  - unfold reset_index. destruct (df_index df) as [k|iname vs]; simpl.
    + destruct (numeric_cols df) as [|x [|y l]]; try discriminate.
      intros H. inversion H; subst.
      eexists. split; [apply lookup_setitem_same|reflexivity].
    + destruct (has_column df _); simpl; [discriminate|].
      intros H. inversion H; subst.
      exists (DatetimeSeries vs). split; [|reflexivity].
      unfold lookup. simpl. now rewrite String.eqb_refl.
Qed.

(** Settling the time column leaves the columns of another name as they
    are. *)
Lemma resolve_time_column_others df tcol df1 tc col :
  resolve_time_column df tcol = Ok (df1, tc) ->
  In col (df_cols df1) -> cname col <> tc -> In col (df_cols df).
Proof.
  unfold resolve_time_column. destruct tcol as [n|].
  - intros H. now inversion H.
  - destruct (is_datetime_index (df_index df)).
    + unfold reset_index. destruct (df_index df) as [k|iname vs];
        destruct (has_column df _); simpl; try discriminate;
        intros H; inversion H; subst; simpl;
        intros [<-|Hin] Hne; auto; now elim Hne.
    + destruct (numeric_cols df) as [|x [|y l]]; try discriminate.
      intros H. inversion H; subst. clear H. unfold setitem.
      destruct (has_column df "datetime"); simpl.
      * induction (df_cols df) as [|c cols IH]; simpl; [tauto|].
        destruct (String.eqb (cname c) "datetime").
        -- intros [<-|Hin] Hne; [now elim Hne|now right].
        -- intros [<-|Hin] Hne; [now left|right; auto].
      * rewrite in_app_iff. intros [Hin|[<-|[]]] Hne; [assumption|].
        now elim Hne.
Qed.

(** C10.  Pruning comes before the validation of the requested names: when
    the loaded table has a column [c], other than the time column, that
    holds no value in any row, a request that names [c] fails with the
    missing-columns error, and [c] is among the names it lists. *)
Theorem pruned_column_reported_missing f l c df0 df tcol df1 tc s :
  f_exists f = true ->
  load f = Ok df0 ->
  detect_with_fallback parse f df0 = Ok (df, tcol) ->
  resolve_time_column df tcol = Ok (df1, tc) ->
  NoDup (columns df) ->
  lookup c (df_cols df) = Some s ->
  notna_any s = false ->
  c <> tc ->
  In c l ->
  exists missing,
    prepare_data parse f (Some l)
    = Raise (Exn ValueError
               ("Columns not found: " ++ join ", " missing)%string)
    /\ In c missing.
Proof.
  intros Hex Hload Hdet Hres Hnd Hlk Hnull Hne Hin.
  pose proof (detect_with_fallback_inv f df0 df tcol Hdet) as ->.
  destruct (resolved_time_column_converts df df1 tc Hnd Hres)
    as (s1 & L1 & Hok).
  destruct (to_datetime parse s1) as [t|e] eqn:T; [|discriminate].
  set (df3 := dropna_all_columns (setitem df1 tc t)).
  assert (Hprep : prepared_table parse f = Ok (df3, tc)).
  { unfold prepared_table. rewrite Hex, Hload. simpl. rewrite Hdet. simpl.
    unfold clean_table. rewrite Hres. simpl.
    unfold coerce_time_column, getitem. rewrite L1. simpl. rewrite T.
    reflexivity. }
  assert (Hgone : ~ In c (columns df3)).
  { unfold columns. intros H. apply in_map_iff in H.
    destruct H as (col & Hname & Hcol).
    apply dropna_columns in Hcol. destruct Hcol as [Hcol Hval].
    assert (Hc : cname col <> tc) by congruence.
    apply setitem_others in Hcol; [|assumption].
    apply (resolve_time_column_others df _ df1 tc col Hres) in Hcol;
      [|assumption].
    pose proof (lookup_in_nodup (df_cols df) col Hnd Hcol) as L.
    rewrite Hname, Hlk in L. injection L as ->. congruence. }
  assert (Hmiss : In c (missing_cols df3 l))
    by (apply missing_cols_spec; split; assumption).
  exists (missing_cols df3 l). split; [|assumption].
  destruct l as [|x l]; [destruct Hin|].
  unfold prepare_data. rewrite Hprep. cbn [bind].
  unfold select_value_columns, resolve_value_columns.
  remember (missing_cols df3 (x :: l)) as missing eqn:M.
  destruct missing; [destruct Hmiss|reflexivity].
Qed.

End TimeColumnFacts.

(** C10 at [notes.csv]: the empty column [note] is in the file, and asking
    for it is answered by the missing-columns error. *)
Lemma pruned_column_reported_missing_witness :
  lookup "note" (df_cols notes_table) = Some (Float64Series [None; None])
  /\ exists missing,
       prepare_data parse_iso_date notes_csv (Some ["load"; "note"])
       = Raise (Exn ValueError
                  ("Columns not found: " ++ join ", " missing)%string)
       /\ In "note" missing.
Proof.
  split; [reflexivity|].
  apply (pruned_column_reported_missing parse_iso_date notes_csv
           ["load"; "note"] "note" notes_table notes_table (Some "date")
           notes_table "date" (Float64Series [None; None])).
  - reflexivity.
  - reflexivity.
  - reflexivity.
  - reflexivity.
  - repeat constructor; simpl; intuition discriminate.
  - reflexivity.
  - reflexivity.
  - discriminate.
  - simpl. auto.
Defined.

(** ** The synthesized hourly time column *)

Lemma date_range_hourly_length start n :
  List.length (date_range_hourly start n) = n.
Proof. unfold date_range_hourly. now rewrite length_map, length_seq. Qed.

Lemma date_range_hourly_nth start n i :
  (i < n)%nat ->
  nth i (date_range_hourly start n) None
  = Some (start + Z.of_nat i * ns_per_hour).
Proof.
  intros Hi. unfold date_range_hourly.
  rewrite (nth_indep _ None (Some (start + Z.of_nat 0 * ns_per_hour)))
    by (now rewrite length_map, length_seq).
  rewrite (map_nth (fun i => Some (start + Z.of_nat i * ns_per_hour))).
  now rewrite seq_nth.
Qed.

Lemma date_range_hourly_notna start n :
  (0 < n)%nat ->
  notna_any (DatetimeSeries (date_range_hourly start n)) = true.
Proof.
  destruct n as [|n]; [intros H; inversion H|]. intros _. reflexivity.
Qed.

Lemma lookup_dropna df n s :
  lookup n (df_cols df) = Some s ->
  notna_any s = true ->
  lookup n (df_cols (dropna_all_columns df)) = Some s.
Proof.
  unfold dropna_all_columns. simpl.
  induction (df_cols df) as [|c cols IH]; simpl; [discriminate|].
  rewrite lookup_cons. destruct (String.eqb (cname c) n) eqn:E.
  - intros [= <-] Hv. rewrite Hv, lookup_cons, E. reflexivity.
  - intros L Hv. destruct (notna_any (cdata c)); [rewrite lookup_cons, E|];
      auto.
Qed.

Lemma nodup_map_filter {A B : Type} (f : A -> B) (p : A -> bool) l :
  NoDup (map f l) -> NoDup (map f (filter p l)).
Proof.
  induction l as [|a l IH]; simpl; [auto|].
  intros H. inversion H as [|? ? Hnotin Hnd]; subst.
  destruct (p a); simpl; [|auto]. constructor; [|auto].
  intros Hin. apply Hnotin. apply in_map_iff in Hin.
  destruct Hin as (x & <- & Hx). apply filter_In in Hx.
  apply in_map. tauto.
Qed.

Lemma setitem_nodup df name s :
  NoDup (columns df) -> NoDup (columns (setitem df name s)).
Proof.
  intros Hnd. unfold setitem, columns.
  destruct (has_column df name) eqn:E; simpl.
  - now rewrite replace_column_names.
  - rewrite map_app. apply NoDup_app; [assumption|repeat constructor; auto|].
    intros a Ha [Heq|[]]. subst a.
    assert (has_column df name = true) by (apply has_column_iff; exact Ha).
    congruence.
Qed.

Lemma singleton_of_nodup {A : Type} (l : list A) (c : A) :
  NoDup l -> l <> [] -> (forall v, In v l -> v = c) -> l = [c].
Proof.
  intros Hnd Hne Hall. destruct l as [|x l]; [now elim Hne|].
  assert (x = c) by (apply Hall; now left). subst x.
  destruct l as [|y l]; [reflexivity|].
  assert (y = c) by (apply Hall; right; now left). subst y.
  inversion Hnd as [|? ? Hnotin _]. elim Hnotin. now left.
Qed.

Lemma auto_value_columns_nodup df tc cols vcs :
  truthy cols = false ->
  resolve_value_columns df tc cols = Ok vcs ->
  NoDup (columns df) -> NoDup vcs.
Proof.
  intros T H Hnd.
  destruct cols as [[|? ?]|]; try discriminate T; simpl in H;
    injection H as <-; now do 2 apply NoDup_filter.
Qed.

Section Synthesis.

Variable parse : string -> option timestamp.

(** C4, amended.  When no time column was detected, the index is not a
    timestamp index and exactly one column [c] is numeric, the time column
    is a new column [datetime] of hourly timestamps, one per row in row
    order, the first one 2027-01-01T00:00:00; with 8760 rows the last one is
    2027-12-31T23:00:00.  A preparation that succeeds on a table with a row
    returns that column as the time column, and, when no column was asked
    for, [c] as the only value column. *)
Theorem synthesized_hourly_time_column f cols df0 df c :
  f_exists f = true ->
  load f = Ok df0 ->
  detect_with_fallback parse f df0 = Ok (df, None) ->
  is_datetime_index (df_index df) = false ->
  numeric_cols df = [c] ->
  NoDup (columns df) ->
  let stamps := date_range_hourly (timestamp_of_date 2027 1 1) (len df) in
  resolve_time_column df None
    = Ok (setitem df "datetime" (DatetimeSeries stamps), "datetime")
  /\ List.length stamps = len df
  /\ (forall i, (i < len df)%nat ->
        nth i stamps None
        = Some (timestamp_of_date 2027 1 1 + Z.of_nat i * ns_per_hour))
  /\ civil_of_timestamp (timestamp_of_date 2027 1 1) = Civil 2027 1 1 0 0 0
  /\ (Z.of_nat (len df) = 8760 ->
      option_map civil_of_timestamp (last stamps None)
      = Some (Civil 2027 12 31 23 0 0))
  /\ (forall df' tc vcs,
        prepare_data parse f cols = Ok (df', tc, vcs) ->
        (0 < len df)%nat ->
        tc = "datetime"
        /\ lookup "datetime" (df_cols df') = Some (DatetimeSeries stamps)
        /\ (truthy cols = false -> vcs = [c])).
Proof.
  intros Hex Hload Hdet Hidx Hnum Hnd stamps.
  assert (Hres : resolve_time_column df None
                 = Ok (setitem df "datetime" (DatetimeSeries stamps),
                       "datetime")).
  { unfold resolve_time_column. rewrite Hidx, Hnum. reflexivity. }
  split; [exact Hres|]. split; [apply date_range_hourly_length|].
  split; [intros i Hi; now apply date_range_hourly_nth|].
  split; [reflexivity|]. split.
  { intros H8760. subst stamps.
    replace (len df) with (Z.to_nat 8760) by lia. now vm_compute. }
  intros df' tc vcs Hprep Hrows.
  set (df1 := setitem df "datetime" (DatetimeSeries stamps)) in *.
  set (df2 := setitem df1 "datetime" (DatetimeSeries stamps)).
  assert (Htable : prepared_table parse f
                   = Ok (dropna_all_columns df2, "datetime")).
  { unfold prepared_table. rewrite Hex, Hload. simpl. rewrite Hdet. simpl.
    unfold clean_table. rewrite Hres. simpl.
    unfold coerce_time_column, getitem. fold df1.
    unfold df1 at 1. rewrite lookup_setitem_same. reflexivity. }
  apply prepare_data_inv in Hprep. destruct Hprep as (Htable' & Hvcs & Hne).
  rewrite Htable in Htable'. injection Htable' as <- <-.
  split; [reflexivity|]. split.
  - apply lookup_dropna.
    + unfold df2. apply lookup_setitem_same.
    + subst stamps. now apply date_range_hourly_notna.
  - intros T. apply singleton_of_nodup; [|assumption|].
    + apply (auto_value_columns_nodup _ _ _ _ T Hvcs).
      unfold columns, dropna_all_columns. simpl. apply nodup_map_filter.
      now do 2 apply setitem_nodup.
    + intros v Hv.
      destruct (auto_value_columns _ _ _ _ T Hvcs v Hv)
        as (Hvne & _ & s & L & Hs).
      apply lookup_some_in in L. apply dropna_columns in L.
      destruct L as [L _].
      pose proof (setitem_others df1 "datetime" _ (Column v s) L Hvne) as L1.
      pose proof (setitem_others df "datetime" _ (Column v s) L1 Hvne) as L2.
      assert (Hin : In v (numeric_cols df)).
      { unfold numeric_cols. apply filter_In. split.
        - apply (in_map cname) in L2. exact L2.
        - pose proof (lookup_in_nodup (df_cols df) (Column v s) Hnd L2)
            as L3. simpl in L3. now rewrite L3. }
      rewrite Hnum in Hin. destruct Hin as [<-|[]]. reflexivity.
Qed.

End Synthesis.

(** C4 at [flags.csv]: one boolean column, 8760 rows, nothing asked for. *)
Lemma synthesized_hourly_time_column_witness :
  numeric_cols flags_table = ["flag"]
  /\ Z.of_nat (len flags_table) = 8760
  /\ option_map civil_of_timestamp
       (last (date_range_hourly (timestamp_of_date 2027 1 1)
                (len flags_table)) None)
     = Some (Civil 2027 12 31 23 0 0).
Proof.
  split; [reflexivity|]. split; [reflexivity|].
  apply (synthesized_hourly_time_column parse_iso_date flags_csv None
           flags_table flags_table "flag"); try reflexivity.
  repeat constructor. simpl. tauto.
Defined.

(** C4 as stated fails on its last point.  On [stamped.csv] the
    synthesized column takes the place of the numeric column of the same
    name and no value column is left; on [flags.csv] a request for a column
    is what comes back as the value columns, here the synthesized column
    itself and not [flag]. *)
Lemma synthesized_value_columns_not_numeric_column :
  (detect_with_fallback parse_iso_date stamped_csv stamped_table
     = Ok (stamped_table, None)
   /\ is_datetime_index (df_index stamped_table) = false
   /\ numeric_cols stamped_table = ["datetime"]
   /\ Z.of_nat (len stamped_table) = 8760
   /\ prepare_data parse_iso_date stamped_csv None
      = Raise (Exn ValueError "No numeric columns found to plot"))
  /\ (detect_with_fallback parse_iso_date flags_csv flags_table
        = Ok (flags_table, None)
      /\ is_datetime_index (df_index flags_table) = false
      /\ numeric_cols flags_table = ["flag"]
      /\ Z.of_nat (len flags_table) = 8760
      /\ match prepare_data parse_iso_date flags_csv (Some ["datetime"]) with
         | Ok (_, tc, vcs) =>
             tc = "datetime" /\ vcs = ["datetime"] /\ vcs <> ["flag"]
         | Raise _ => False
         end).
Proof.
  split.
  - repeat (split; [reflexivity|]). now vm_compute.
  - repeat (split; [reflexivity|]).
    vm_compute. repeat split. discriminate.
Qed.

(** ** Pruning and the time column *)

(** C8.  Pruning keeps exactly the columns that hold a value, so every
    column that is entirely null goes, the time column included: on
    [gaps.csv], where the cells of [date] are all empty, the preparation
    returns a table without the time column it names, and the chart builder
    then fails on it. *)
Theorem all_null_time_column_pruned :
  (forall df col,
      In col (df_cols (dropna_all_columns df)) <->
      In col (df_cols df) /\ notna_any (cdata col) = true)
  /\ prepare_data parse_iso_date gaps_csv None
     = Ok (Frame (RangeIndex 2) [Column "v" (Int64Series [1; 2])],
           "date", ["v"])
  /\ fst (create_plot "date" ["v"]
            (Frame (RangeIndex 2) [Column "v" (Int64Series [1; 2])]))
     = Raise (Exn KeyError "'date'").
Proof.
  split; [exact dropna_columns|]. split; reflexivity.
Qed.

(** ** The chart builder *)

Lemma setitem_idem df name s :
  setitem (setitem df name s) name s = setitem df name s.
Proof.
  assert (Hrep : forall cols, In name (map cname cols) ->
            replace_column name s (replace_column name s cols)
            = replace_column name s cols).
  { induction cols as [|c cols IH]; simpl; [tauto|].
    destruct (String.eqb (cname c) name) eqn:E; simpl.
    - now rewrite String.eqb_refl.
    - rewrite E. intros [H|H]; [apply String.eqb_neq in E; contradiction|].
      now rewrite IH. }
  assert (Happ : forall cols, ~ In name (map cname cols) ->
            replace_column name s (cols ++ [Column name s])
            = cols ++ [Column name s]).
  { induction cols as [|c cols IH]; simpl.
    - now rewrite String.eqb_refl.
    - intros H. destruct (String.eqb (cname c) name) eqn:E.
      + apply String.eqb_eq in E. elim H. now left.
      + rewrite IH; [reflexivity|tauto]. }
  unfold setitem at 1.
  assert (Hhas : has_column (setitem df name s) name = true).
  { apply has_column_iff, in_columns_lookup. eexists.
    apply lookup_setitem_same. }
  rewrite Hhas. unfold setitem. destruct (has_column df name) eqn:E; simpl.
  - rewrite Hrep; [reflexivity|]. now apply has_column_iff.
  - rewrite Happ; [reflexivity|]. intros H. apply has_column_iff in H.
    congruence.
Qed.

Section BuilderFacts.

Variables (tc : string) (ts : list (option timestamp)).

Lemma day_of_week_step_labels d :
  lookup tc (df_cols d) = Some (DatetimeSeries ts) ->
  day_of_week_step tc true d
  = (Ok (Some (day_rows ts), hover_day),
     setitem d "_day_of_week" (day_labels ts)).
Proof.
  intros L. unfold day_of_week_step, day_name_series, values1, getitem.
  rewrite L. cbn [bind dt]. fold (day_labels ts).
  rewrite lookup_setitem_same. cbn [bind]. unfold day_labels, day_rows.
  cbn [cells]. now rewrite !map_map.
Qed.

(** Once the time column holds text, a further turn of the loop fails. *)
Lemma plot_series_fails_on_text d vs idx col :
  lookup tc (df_cols d) = Some (ObjectSeries vs) ->
  exists e d', plot_series tc true idx col d = (Raise e, d').
Proof.
  intros L. unfold plot_series, day_of_week_step, day_name_series, getitem.
  rewrite L. cbn [bind dt]. eauto.
Qed.

Lemma plot_series_shape hy idx col d t d' :
  lookup tc (df_cols d) = Some (DatetimeSeries ts) ->
  plot_series tc hy idx col d = (Ok t, d') ->
  tr_name t = col
  /\ tr_line_color t = nth (idx mod 5) PALETTE_COLORS EmptyString
  /\ series_ok ts hy t
  /\ d' = (if hy then setitem d "_day_of_week" (day_labels ts) else d).
Proof.
  intros L. unfold plot_series. destruct hy.
  - rewrite (day_of_week_step_labels d L).
    destruct (getitem _ tc) as [x|e]; [|discriminate].
    destruct (getitem _ col) as [y|e]; [|discriminate].
    intros H. inversion H; subst. repeat split.
  - unfold day_of_week_step.
    destruct (getitem d tc) as [x|e]; [|discriminate].
    destruct (getitem d col) as [y|e]; [|discriminate].
    intros H. inversion H; subst. repeat split.
Qed.

Lemma plot_loop_shape hy vcs :
  forall idx d traces d',
    lookup tc (df_cols d) = Some (DatetimeSeries ts) ->
    plot_loop tc hy idx vcs d = (Ok traces, d') ->
    map tr_name traces = vcs
    /\ (forall i t, nth_error traces i = Some t ->
          tr_line_color t = nth ((idx + i) mod 5) PALETTE_COLORS EmptyString)
    /\ Forall (series_ok ts hy) traces.
Proof.
  induction vcs as [|col rest IH]; intros idx d traces d' L; simpl.
  - intros H. inversion H; subst. repeat split; [|constructor].
    intros [|i] t; discriminate.
  - destruct (plot_series tc hy idx col d) as [[t|e] d1] eqn:P;
      [|discriminate].
    destruct (plot_series_shape hy idx col d t d1 L P)
      as (Hname & Hcol & Hok & Hd1).
    destruct (plot_loop tc hy (S idx) rest d1) as [[tr|e] d2] eqn:R;
      [|discriminate].
    intros H. inversion H; subst traces d'. clear H.
    assert (Hrest : map tr_name tr = rest
              /\ (forall i t', nth_error tr i = Some t' ->
                    tr_line_color t'
                    = nth ((S idx + i) mod 5) PALETTE_COLORS EmptyString)
              /\ Forall (series_ok ts hy) tr).
    { destruct rest as [|col2 rest2].
      - simpl in R. inversion R; subst. repeat split; [|constructor].
        intros [|i] t'; discriminate.
      - destruct hy; subst d1; [|now apply (IH (S idx) d tr d2)].
        destruct (String.eqb tc "_day_of_week") eqn:E.
        + apply String.eqb_eq in E. exfalso.
          destruct (plot_series_fails_on_text
                      (setitem d "_day_of_week" (day_labels ts))
                      (map (option_map day_name) ts) (S idx) col2)
            as (e & dd & F).
          { rewrite E. apply lookup_setitem_same. }
          simpl in R. rewrite F in R. discriminate R.
        + apply String.eqb_neq in E.
          apply (IH (S idx)
                   (setitem d "_day_of_week" (day_labels ts)) tr d2);
            [|exact R].
          now rewrite lookup_setitem_other. }
    destruct Hrest as (Hn & Hc & Hf). simpl. repeat split.
    + now rewrite Hname, Hn.
    + intros [|i] t'; cbn [nth_error].
      * intros [= <-]. now rewrite Nat.add_0_r.
      * intros Hi. replace (idx + S i)%nat with (S idx + i)%nat by lia.
        exact (Hc i t' Hi).
    + constructor; assumption.
Qed.

End BuilderFacts.

Lemma plot_series_ok tc ts hy idx col d :
  tc <> "_day_of_week"%string ->
  lookup tc (df_cols d) = Some (DatetimeSeries ts) ->
  In col (columns d) ->
  exists t,
    plot_series tc hy idx col d
    = (Ok t, if hy then setitem d "_day_of_week" (day_labels ts) else d).
Proof.
  intros Hne L Hcol. unfold plot_series. destruct hy.
  - rewrite (day_of_week_step_labels tc ts d L). unfold getitem.
    rewrite (lookup_setitem_other d _ _ tc Hne), L.
    apply (setitem_keeps_columns d "_day_of_week" (day_labels ts)) in Hcol.
    apply in_columns_lookup in Hcol. destruct Hcol as [y ->]. eauto.
  - unfold day_of_week_step, getitem. rewrite L.
    apply in_columns_lookup in Hcol. destruct Hcol as [y ->]. eauto.
Qed.

Lemma plot_loop_ok tc ts hy vcs :
  tc <> "_day_of_week"%string ->
  forall idx d,
    lookup tc (df_cols d) = Some (DatetimeSeries ts) ->
    (forall c, In c vcs -> In c (columns d)) ->
    exists traces,
      plot_loop tc hy idx vcs d
      = (Ok traces,
         if hy && negb (is_nil vcs)
         then setitem d "_day_of_week" (day_labels ts) else d).
Proof.
  intros Hne. induction vcs as [|col rest IH]; intros idx d L Hcols.
  - exists []. simpl. now rewrite andb_false_r.
  - destruct (plot_series_ok tc ts hy idx col d Hne L
                (Hcols col (or_introl eq_refl))) as [t P].
    cbn [plot_loop]. rewrite P.
    set (d1 := if hy then setitem d "_day_of_week" (day_labels ts) else d).
    assert (L1 : lookup tc (df_cols d1) = Some (DatetimeSeries ts)).
    { subst d1. destruct hy; [|assumption].
      now rewrite lookup_setitem_other. }
    assert (Hcols1 : forall c, In c rest -> In c (columns d1)).
    { intros c Hc. subst d1. destruct hy.
      - apply setitem_keeps_columns. apply Hcols. now right.
      - apply Hcols. now right. }
    destruct (IH (S idx) d1 L1 Hcols1) as [tr R]. rewrite R.
    exists (t :: tr). f_equal. subst d1. destruct hy; simpl.
    + destruct (negb (is_nil rest)); [apply setitem_idem|reflexivity].
    + reflexivity.
Qed.

Lemma create_plot_inv tc vcs df fig df' :
  create_plot tc vcs df = (Ok fig, df') ->
  exists ts,
    lookup tc (df_cols df) = Some (DatetimeSeries ts)
    /\ plot_loop tc (existsb is_some ts) 0 vcs df = (Ok (fig_data fig), df')
    /\ fig_layout fig = themed_layout.
Proof.
  unfold create_plot, has_year_of, getitem.
  destruct (lookup tc (df_cols df)) as [s|]; [|discriminate].
  destruct s as [vs|vs|vs|vs|ts]; try discriminate. cbn [bind dt].
  destruct (plot_loop tc (existsb is_some ts) 0 vcs df) as [[tr|e] d1] eqn:P;
    [|discriminate].
  intros H. inversion H; subst. exists ts. simpl. auto.
Qed.

Lemma create_plot_runs tc vcs df ts :
  lookup tc (df_cols df) = Some (DatetimeSeries ts) ->
  (forall c, In c vcs -> In c (columns df)) ->
  tc <> "_day_of_week"%string ->
  exists fig,
    create_plot tc vcs df
    = (Ok fig,
       if existsb is_some ts && negb (is_nil vcs)
       then setitem df "_day_of_week" (day_labels ts) else df).
Proof.
  intros L Hcols Hne. unfold create_plot, has_year_of, getitem.
  rewrite L. cbn [bind dt].
  destruct (plot_loop_ok tc ts (existsb is_some ts) vcs Hne 0%nat df L Hcols)
    as [tr ->]. eauto.
Qed.

(** C3, amended.  On a table whose time column holds timestamps and is not
    named [_day_of_week], and which has every value column, the builder
    returns a chart.  It leaves the index and every column of another name
    as they were; when some timestamp is not null and there is a value
    column it writes the column [_day_of_week] into the table, and leaves
    the table unchanged otherwise. *)
Theorem create_plot_frame tc vcs df ts :
  lookup tc (df_cols df) = Some (DatetimeSeries ts) ->
  (forall c, In c vcs -> In c (columns df)) ->
  tc <> "_day_of_week"%string ->
  exists fig df',
    create_plot tc vcs df = (Ok fig, df')
    /\ df' = (if existsb is_some ts && negb (is_nil vcs)
              then setitem df "_day_of_week" (day_labels ts) else df)
    /\ df_index df' = df_index df
    /\ (forall n, n <> "_day_of_week"%string ->
          lookup n (df_cols df') = lookup n (df_cols df))
    /\ (existsb is_some ts = false \/ vcs = [] -> df' = df).
Proof.
  intros L Hcols Hne.
  destruct (create_plot_runs tc vcs df ts L Hcols Hne) as [fig H].
  exists fig. eexists. split; [exact H|]. split; [reflexivity|].
  destruct (existsb is_some ts && negb (is_nil vcs)) eqn:E.
  - split; [|split].
    + unfold setitem. now destruct (has_column df "_day_of_week").
    + intros n Hn. now apply lookup_setitem_other.
    + intros [H0| ->].
      * rewrite H0 in E. discriminate.
      * rewrite andb_false_r in E. discriminate.
  - repeat split.
Qed.

(** C3 at the table prepared from [sales.csv]. *)
Lemma create_plot_frame_witness :
  exists fig df',
    create_plot "date" ["load"] sales_prepared = (Ok fig, df')
    /\ lookup "load" (df_cols df') = lookup "load" (df_cols sales_prepared)
    /\ lookup "date" (df_cols df') = lookup "date" (df_cols sales_prepared).
Proof.
  destruct (create_plot_frame "date" ["load"] sales_prepared sales_dates)
    as (fig & df' & H & _ & _ & Hother & _).
  - reflexivity.
  - intros c [<-|[]]. simpl. tauto.
  - discriminate.
  - exists fig, df'. split; [exact H|]. split; apply Hother; discriminate.
Defined.

(** C3 as stated fails: the table that [prepare_data] returns for
    [sales.csv] comes out of the builder with one column more. *)
Lemma create_plot_adds_column :
  prepare_data parse_iso_date sales_csv None
    = Ok (sales_prepared, "date", ["load"])
  /\ exists fig,
       create_plot "date" ["load"] sales_prepared
       = (Ok fig,
          Frame (RangeIndex 2)
            (df_cols sales_prepared
             ++ [Column "_day_of_week"
                   (ObjectSeries [Some "Monday"; Some "Tuesday"])%string]))
  /\ snd (create_plot "date" ["load"] sales_prepared) <> sales_prepared.
Proof.
  split; [reflexivity|]. eexists. split; [reflexivity|discriminate].
Qed.

(** The name of the helper column is not free: when the time column bears
    it, the first turn of the loop overwrites the timestamps and the second
    fails. *)
Lemma create_plot_fails_on_name_clash :
  fst (create_plot "_day_of_week" ["a"; "b"] clash_table)
  = Raise (Exn AttributeError
             "Can only use .dt accessor with datetimelike values").
Proof. reflexivity. Qed.

(** C6.  A chart that the builder returns has one series per value column,
    in the order of the list and named after its column; the series at
    position [i], counted from zero, has the colour [i mod 5] of the palette
    of five, so that the sixth series has the colour of the first. *)
Theorem create_plot_series tc vcs df fig df' :
  create_plot tc vcs df = (Ok fig, df') ->
  List.length (fig_data fig) = List.length vcs
  /\ map tr_name (fig_data fig) = vcs
  /\ List.length PALETTE_COLORS = 5%nat
  /\ (forall i t,
        nth_error (fig_data fig) i = Some t ->
        nth_error vcs i = Some (tr_name t)
        /\ tr_line_color t = nth (i mod 5) PALETTE_COLORS EmptyString)
  /\ (forall t0 t5,
        nth_error (fig_data fig) 0 = Some t0 ->
        nth_error (fig_data fig) 5 = Some t5 ->
        tr_line_color t5 = tr_line_color t0).
Proof.
  intros H. apply create_plot_inv in H. destruct H as (ts & L & P & _).
  destruct (plot_loop_shape tc ts _ vcs 0%nat df (fig_data fig) df' L P)
    as (Hnames & Hcolor & _).
  split; [rewrite <- Hnames; now rewrite length_map|].
  split; [assumption|]. split; [reflexivity|]. split.
  - intros i t Hi. split.
    + rewrite <- Hnames. now apply map_nth_error.
    + now apply (Hcolor i t).
  - intros t0 t5 H0 H5.
    rewrite (Hcolor _ _ H0), (Hcolor _ _ H5). reflexivity.
Qed.

(** C6 on six value columns: six series, the colours of the palette in
    turn, then the first colour again. *)
Lemma create_plot_series_witness :
  exists fig df',
    create_plot "date" ["a"; "b"; "c"; "d"; "e"; "f"] wide_table
    = (Ok fig, df')
    /\ map tr_name (fig_data fig) = ["a"; "b"; "c"; "d"; "e"; "f"]
    /\ map tr_line_color (fig_data fig)
       = ["#5A6876"; "#BBA178"; "#BACCCC"; "#8C9785"; "#DBE0D7";
          "#5A6876"]%string.
Proof.
  eexists. eexists. split; [reflexivity|]. split; [|reflexivity].
  eapply (create_plot_series "date" ["a"; "b"; "c"; "d"; "e"; "f"]
            wide_table).
  reflexivity.
Defined.

(** C9.  Whether the time column carries a date is read once, off the
    table as it is handed in: some timestamp of the column is not null.
    When it is so, every series of the chart carries the day of the week of
    each point and the line of the hover text that shows it; when it is not,
    no series carries either. *)
Theorem create_plot_day_of_week tc vcs df fig df' :
  create_plot tc vcs df = (Ok fig, df') ->
  exists ts,
    lookup tc (df_cols df) = Some (DatetimeSeries ts)
    /\ has_year_of df tc = Ok (existsb is_some ts)
    /\ (existsb is_some ts = true ->
        forall t, In t (fig_data fig) ->
          tr_customdata t = Some (day_rows ts)
          /\ tr_hovertemplate t
             = (hover_head (tr_name t) ++ hover_day ++ hover_tail)%string)
    /\ (existsb is_some ts = false ->
        forall t, In t (fig_data fig) ->
          tr_customdata t = None
          /\ tr_hovertemplate t
             = (hover_head (tr_name t) ++ hover_tail)%string).
Proof.
  intros H. apply create_plot_inv in H. destruct H as (ts & L & P & _).
  exists ts. split; [assumption|]. split.
  { unfold has_year_of, getitem. now rewrite L. }
  destruct (plot_loop_shape tc ts _ vcs 0%nat df (fig_data fig) df' L P)
    as (_ & _ & Hall).
  rewrite Forall_forall in Hall. split; intros E t Ht;
    destruct (Hall t Ht) as [Hc Hh]; rewrite E in Hc, Hh; split;
    assumption.
Qed.

(** C9 on a dated table and on one whose time column is all NaT. *)
Lemma create_plot_day_of_week_witness :
  (exists fig df',
     create_plot "date" ["load"] sales_prepared = (Ok fig, df')
     /\ forall t, In t (fig_data fig) ->
          tr_customdata t = Some [[CStr "Monday"]; [CStr "Tuesday"]]
          /\ tr_hovertemplate t
             = (hover_head (tr_name t) ++ hover_day ++ hover_tail)%string)
  /\ (exists fig df',
        create_plot "date" ["v"] undated_table = (Ok fig, df')
        /\ forall t, In t (fig_data fig) ->
             tr_customdata t = None
             /\ tr_hovertemplate t
                = (hover_head (tr_name t) ++ hover_tail)%string).
Proof.
  split.
  - destruct (create_plot "date" ["load"] sales_prepared)
      as [[fig|e] df'] eqn:E; [|discriminate E].
    exists fig, df'. split; [reflexivity|].
    destruct (create_plot_day_of_week "date" ["load"] sales_prepared
                fig df' E) as (ts & L & _ & Hyes & _).
    injection L as <-. exact (Hyes eq_refl).
  - destruct (create_plot "date" ["v"] undated_table)
      as [[fig|e] df'] eqn:E; [|discriminate E].
    exists fig, df'. split; [reflexivity|].
    destruct (create_plot_day_of_week "date" ["v"] undated_table
                fig df' E) as (ts & L & _ & _ & Hno).
    injection L as <-. exact (Hno eq_refl).
Defined.

(** ** The command line *)

Section MainFacts.

Variable parse : string -> option timestamp.

Lemma run_failure_no_chart w a ev e :
  run parse w a = (ev, Some e) -> filter is_chart_event ev = [].
Proof.
  unfold run.
  destruct (prepare_data parse (w_file w) _) as [[[df tc] vcs]|e0].
  - destruct (create_plot tc vcs df) as [[fig0|e1] d].
    + destruct (nonempty (a_output a)) as [path|].
      * destruct (w_write_html w path _); intros H; inversion H; reflexivity.
      * destruct (w_show w _); intros H; inversion H; reflexivity.
    + intros H; inversion H; reflexivity.
  - intros H; inversion H; reflexivity.
Qed.

(** C7, amended.  A run that ends with a status other than 0 has put no
    chart out and its last line is [Error: <message>] on standard error.
    Its status is 1 when the input path exists, whatever failed in the
    pipeline; a path that does not exist is refused before the pipeline
    starts, and the status is then 2. *)
Theorem main_failure w a :
  exit_code (main parse w a) <> 0 ->
  filter is_chart_event (events (main parse w a)) = []
  /\ (exists msg,
        last (events (main parse w a)) (Stdout EmptyString)
        = Stderr ("Error: " ++ msg)%string)
  /\ (f_exists (w_file w) = true -> exit_code (main parse w a) = 1)
  /\ (f_exists (w_file w) = false -> exit_code (main parse w a) = 2).
Proof.
  unfold main. destruct (f_exists (w_file w)); simpl.
  - destruct (run parse w a) as [ev [e|]] eqn:R; simpl.
    + intros _. split; [|split; [|split]].
      * rewrite filter_app, (run_failure_no_chart w a ev e R). reflexivity.
      * exists (exn_msg e). apply last_last.
      * reflexivity.
      * discriminate.
    + intros H. now elim H.
  - intros _. split; [reflexivity|]. split; [|split].
    + eexists. reflexivity.
    + discriminate.
    + reflexivity.
Qed.

End MainFacts.

(** C7 at [sales.csv] with a column that is not there. *)
Lemma main_failure_witness :
  main parse_iso_date sales_world (Args "sales.csv" ["price"] None None)
  = Outcome [Stderr "Error: Columns not found: price"] 1
  /\ exit_code
       (main parse_iso_date sales_world
          (Args "sales.csv" ["price"] None None)) = 1
  /\ filter is_chart_event
       (events (main parse_iso_date sales_world
                  (Args "sales.csv" ["price"] None None))) = [].
Proof.
  split; [reflexivity|].
  destruct (main_failure parse_iso_date sales_world
              (Args "sales.csv" ["price"] None None))
    as (Hchart & _ & H1 & _); [discriminate|].
  split; [exact (H1 eq_refl)|exact Hchart].
Defined.

(** C7 as stated fails for a path that does not exist: the status is 2. *)
Lemma main_missing_path_status :
  main parse_iso_date missing_world (Args "nofile.csv" [] None None)
  = Outcome
      [ Stderr "Usage: tsviz [OPTIONS] FILE";
        Stderr "Try 'tsviz --help' for help.";
        Stderr EmptyString;
        Stderr "Error: Invalid value for 'FILE': Path 'nofile.csv' does not exist." ]
      2
  /\ exit_code
       (main parse_iso_date missing_world (Args "nofile.csv" [] None None))
     <> 1.
Proof. split; [reflexivity|discriminate]. Qed.

(* ================================================================== *)
(** * Further properties of the preparer *)

Section PreparedTable.

Variable parse : string -> option timestamp.

Lemma loaded_prepared f df tcol :
  loaded parse f df tcol ->
  prepared_table parse f = clean_table parse df tcol
  /\ tcol = detect_time_column parse df.
Proof.
  intros (Hex & df0 & Hload & Hdet). split.
  - unfold prepared_table. rewrite Hex, Hload. simpl. now rewrite Hdet.
  - now apply (detect_with_fallback_inv parse f df0).
Qed.

Lemma to_datetime_shape s t :
  to_datetime parse s = Ok t -> exists ts, t = DatetimeSeries ts.
Proof.
  destruct s as [vs|vs|vs|vs|vs]; simpl; try discriminate;
    try (intros [= <-]; eauto).
  destruct (parse_objects parse vs); simpl; [|discriminate].
  intros [= <-]. eauto.
Qed.

Lemma clean_table_inv df tcol df' tc :
  clean_table parse df tcol = Ok (df', tc) ->
  exists df1 ts,
    resolve_time_column df tcol = Ok (df1, tc)
    /\ df' = dropna_all_columns (setitem df1 tc (DatetimeSeries ts)).
Proof.
  unfold clean_table.
  destruct (resolve_time_column df tcol) as [[df1 tc1]|e]; simpl;
    [|discriminate].
  unfold coerce_time_column.
  destruct (getitem df1 tc1) as [s|e]; simpl; [|discriminate].
  destruct (to_datetime parse s) as [t|e] eqn:T; simpl; [|discriminate].
  intros H. inversion H; subst.
  destruct (to_datetime_shape s t T) as [ts ->]. eauto.
Qed.

Lemma resolve_time_column_nodup df tcol df1 tc :
  resolve_time_column df tcol = Ok (df1, tc) ->
  NoDup (columns df) -> NoDup (columns df1).
Proof.
  unfold resolve_time_column. destruct tcol as [n|].
  - intros H. now inversion H.
  - unfold reset_index. destruct (df_index df) as [k|iname vs]; simpl.
    + destruct (numeric_cols df) as [|x [|y l]]; try discriminate.
      intros H Hnd. inversion H; subst. now apply setitem_nodup.
    + destruct (has_column df _) eqn:E; simpl; [discriminate|].
      intros H Hnd. inversion H; subst. unfold columns. simpl.
      constructor; [|assumption].
      intros Hin. apply has_column_iff in Hin. congruence.
Qed.

Lemma resolve_time_column_len df tcol df1 tc :
  resolve_time_column df tcol = Ok (df1, tc) -> len df1 = len df.
Proof.
  unfold resolve_time_column. destruct tcol as [n|].
  - intros H. now inversion H.
  - unfold reset_index, len. destruct (df_index df) as [k|iname vs] eqn:I;
      simpl.
    + destruct (numeric_cols df) as [|x [|y l]]; try discriminate.
      intros H. inversion H; subst. unfold setitem.
      destruct (has_column df "datetime"); simpl; now rewrite I.
    + destruct (has_column df _); simpl; [discriminate|].
      intros H. inversion H; subst. reflexivity.
Qed.

Lemma setitem_len df name s : len (setitem df name s) = len df.
Proof. unfold setitem, len. now destruct (has_column df name). Qed.

Lemma select_value_columns_inv df tc cols r :
  select_value_columns df tc cols = Ok r ->
  exists vcs,
    r = (df, tc, vcs)
    /\ resolve_value_columns df tc cols = Ok vcs
    /\ vcs <> [].
Proof.
  unfold select_value_columns.
  destruct (resolve_value_columns df tc cols) as [v|e]; simpl;
    [|discriminate].
  destruct v as [|v0 v]; simpl; [discriminate|].
  intros H. inversion H; subst. eexists. repeat split. discriminate.
Qed.

Lemma resolve_value_columns_in df tc cols vcs :
  resolve_value_columns df tc cols = Ok vcs ->
  forall c, In c vcs -> In c (columns df).
Proof.
  intros H c Hin. destruct (truthy cols) eqn:T.
  - destruct cols as [[|x l]|]; try discriminate T.
    unfold resolve_value_columns in H.
    destruct (missing_cols df (x :: l)) eqn:M; [|discriminate].
    injection H as <-. now apply (missing_cols_nil df (x :: l)).
  - now apply (auto_value_columns df tc cols vcs T H).
Qed.

(** X1.  On a loaded table with distinct column names the coercion of the
    time column at line 81 never fails: a preparation can only end with
    the error of a missing time column, of an index that cannot be turned
    into a column, of missing requested columns, or of no column left to
    plot. *)
Theorem prepare_data_errors f cols df tcol e :
  loaded parse f df tcol ->
  NoDup (columns df) ->
  prepare_data parse f cols = Raise e ->
  e = Exn ValueError "No datetime column found in the file"
  \/ (exists n,
        e = Exn ValueError
              ("cannot insert " ++ n ++ ", already exists")%string)
  \/ (exists missing,
        e = Exn ValueError
              ("Columns not found: " ++ join ", " missing)%string)
  \/ e = Exn ValueError "No numeric columns found to plot".
Proof.
  intros Hl Hnd. destruct (loaded_prepared f df tcol Hl) as [Hprep ->].
  unfold prepare_data. rewrite Hprep. unfold clean_table.
  destruct (resolve_time_column df (detect_time_column parse df))
    as [[df1 tc]|e1] eqn:R.
  - destruct (resolved_time_column_converts parse df df1 tc Hnd R)
      as (s & L & Hok).
    cbn [bind]. unfold coerce_time_column, getitem. rewrite L. cbn [bind].
    destruct (to_datetime parse s) as [t|e2]; [|discriminate]. cbn [bind].
    unfold select_value_columns, resolve_value_columns.
    destruct cols as [[|x l]|]; cbn [bind].
    + destruct (is_nil _); [|discriminate]. intros [= <-]. tauto.
    + destruct (missing_cols _ (x :: l)) as [|m ms] eqn:M; cbn [bind is_nil].
      * discriminate.
      * intros [= <-]. right. right. left. exists (m :: ms). reflexivity.
    + destruct (is_nil _); [|discriminate]. intros [= <-]. tauto.
  - cbn [bind]. intros [= <-]. revert R. unfold resolve_time_column.
    destruct (detect_time_column parse df); [discriminate|].
    unfold reset_index. destruct (df_index df) as [k|iname vs]; simpl.
    + destruct (numeric_cols df) as [|x [|y l]]; try discriminate;
        intros [= <-]; tauto.
    + destruct (has_column df _); simpl; [|discriminate].
      intros [= <-]. right. left. eauto.
Qed.

Lemma prepared_time_column_state f cols df tcol df' tc vcs :
  loaded parse f df tcol ->
  NoDup (columns df) ->
  prepare_data parse f cols = Ok (df', tc, vcs) ->
  (exists ts,
      lookup tc (df_cols df') = Some (DatetimeSeries ts)
      /\ existsb is_some ts = true)
  \/ ~ In tc (columns df').
Proof.
  intros Hl Hnd H. apply prepare_data_inv in H. destruct H as (H & _ & _).
  destruct (loaded_prepared f df tcol Hl) as [Hprep _].
  rewrite Hprep in H. apply clean_table_inv in H.
  destruct H as (df1 & ts & R & ->).
  pose proof (resolve_time_column_nodup df tcol df1 tc R Hnd) as Hnd1.
  set (df2 := setitem df1 tc (DatetimeSeries ts)).
  assert (L2 : lookup tc (df_cols df2) = Some (DatetimeSeries ts))
    by apply lookup_setitem_same.
  destruct (existsb is_some ts) eqn:E.
  - left. exists ts. split; [|exact E]. now apply lookup_dropna.
  - right. unfold columns. intros Hin. apply in_map_iff in Hin.
    destruct Hin as (col & Hname & Hcol). apply dropna_columns in Hcol.
    destruct Hcol as [Hcol Hval].
    assert (Hnd2 : NoDup (columns df2)) by now apply setitem_nodup.
    pose proof (lookup_in_nodup (df_cols df2) col Hnd2 Hcol) as L.
    rewrite Hname, L2 in L. injection L as L. rewrite <- L in Hval.
    simpl in Hval. congruence.
Qed.

(** X2.  A successful preparation returns a table in which the time column
    is either a timestamp column with at least one timestamp that is not
    null, or absent (it was entirely null and went with the pruning). *)
Theorem prepare_data_time_column f cols df tcol df' tc vcs :
  loaded parse f df tcol ->
  NoDup (columns df) ->
  prepare_data parse f cols = Ok (df', tc, vcs) ->
  (exists ts,
      lookup tc (df_cols df') = Some (DatetimeSeries ts)
      /\ existsb is_some ts = true)
  \/ ~ In tc (columns df').
Proof. exact (prepared_time_column_state f cols df tcol df' tc vcs). Qed.

(** X3.  The preparation never changes the number of rows: the table it
    returns has the length of the table that was loaded. *)
Theorem prepare_data_len f cols df tcol df' tc vcs :
  loaded parse f df tcol ->
  prepare_data parse f cols = Ok (df', tc, vcs) ->
  len df' = len df.
Proof.
  intros Hl H. apply prepare_data_inv in H. destruct H as (H & _ & _).
  destruct (loaded_prepared f df tcol Hl) as [Hprep _].
  rewrite Hprep in H. apply clean_table_inv in H.
  destruct H as (df1 & ts & R & ->).
  unfold dropna_all_columns, len. simpl.
  change (len (setitem df1 tc (DatetimeSeries ts)) = len df).
  rewrite setitem_len. now apply (resolve_time_column_len df tcol df1 tc).
Qed.

Lemma prepared_table_pruned f df tc :
  prepared_table parse f = Ok (df, tc) ->
  exists df2, df = dropna_all_columns df2.
Proof.
  unfold prepared_table. destruct (negb (f_exists f)); [discriminate|].
  destruct (load f) as [df0|e]; simpl; [|discriminate].
  destruct (detect_with_fallback parse f df0) as [[d tcol]|e]; simpl;
    [|discriminate].
  intros H. apply clean_table_inv in H. destruct H as (df1 & ts & _ & ->).
  eauto.
Qed.

(** X4.  Every column of the table a preparation returns holds a value in
    some row, and so does every value column, requested or found. *)
Theorem prepare_data_columns_hold_values f cols df tc vcs :
  prepare_data parse f cols = Ok (df, tc, vcs) ->
  (forall col, In col (df_cols df) -> notna_any (cdata col) = true)
  /\ (forall c, In c vcs ->
        exists s, lookup c (df_cols df) = Some s /\ notna_any s = true).
Proof.
  intros H. apply prepare_data_inv in H. destruct H as (Hprep & Hres & _).
  destruct (prepared_table_pruned f df tc Hprep) as [df2 ->].
  assert (Hall : forall col, In col (df_cols (dropna_all_columns df2)) ->
                             notna_any (cdata col) = true).
  { intros col Hcol. now apply dropna_columns in Hcol. }
  split; [exact Hall|].
  intros c Hc. apply (resolve_value_columns_in _ _ _ _ Hres) in Hc.
  apply in_columns_lookup in Hc. destruct Hc as [s L]. exists s.
  split; [assumption|]. apply lookup_some_in in L. now apply Hall in L.
Qed.

End PreparedTable.

(** X1 at [words.csv], where no column is a date. *)
Lemma prepare_data_errors_witness :
  loaded parse_iso_date words_csv words_table None
  /\ prepare_data parse_iso_date words_csv None
     = Raise (Exn ValueError "No datetime column found in the file").
Proof.
  assert (Hl : loaded parse_iso_date words_csv words_table None).
  { split; [reflexivity|]. exists words_table. split; reflexivity. }
  split; [exact Hl|].
  assert (Hnd : NoDup (columns words_table)).
  { repeat constructor; simpl; intuition discriminate. }
  destruct (prepare_data parse_iso_date words_csv None) as [r|e] eqn:P;
    [discriminate P|].
  destruct (prepare_data_errors parse_iso_date words_csv None words_table
              None e Hl Hnd P)
    as [ -> | [ [n -> ] | [ [m -> ] | -> ] ] ];
    try reflexivity; discriminate P.
Defined.

(** X2 at [sales.csv]. *)
Lemma prepare_data_time_column_witness :
  loaded parse_iso_date sales_csv sales_table (Some "date")
  /\ ((exists ts,
         lookup "date" (df_cols sales_prepared) = Some (DatetimeSeries ts)
         /\ existsb is_some ts = true)
      \/ ~ In "date" (columns sales_prepared)).
Proof.
  assert (Hl : loaded parse_iso_date sales_csv sales_table (Some "date")).
  { split; [reflexivity|]. exists sales_table. split; reflexivity. }
  split; [exact Hl|].
  apply (prepare_data_time_column parse_iso_date sales_csv None sales_table
           (Some "date") sales_prepared "date" ["load"] Hl).
  - repeat constructor; simpl; intuition discriminate.
  - reflexivity.
Defined.

(** X3 at [sales.csv]. *)
Lemma prepare_data_len_witness :
  loaded parse_iso_date sales_csv sales_table (Some "date")
  /\ len sales_prepared = len sales_table.
Proof.
  assert (Hl : loaded parse_iso_date sales_csv sales_table (Some "date")).
  { split; [reflexivity|]. exists sales_table. split; reflexivity. }
  split; [exact Hl|].
  apply (prepare_data_len parse_iso_date sales_csv None sales_table
           (Some "date") sales_prepared "date" ["load"] Hl).
  reflexivity.
Defined.

(** X4 at [notes.csv], where the column [note] is empty. *)
Lemma prepare_data_columns_hold_values_witness :
  prepare_data parse_iso_date notes_csv None
    = Ok (sales_prepared, "date", ["load"])
  /\ exists s,
       lookup "load" (df_cols sales_prepared) = Some s
       /\ notna_any s = true.
Proof.
  assert (H : prepare_data parse_iso_date notes_csv None
              = Ok (sales_prepared, "date", ["load"])) by reflexivity.
  split; [exact H|].
  apply (prepare_data_columns_hold_values parse_iso_date notes_csv None
           sales_prepared "date" ["load"] H).
  now left.
Defined.

(** ** Value columns found by the preparer, and numeric time columns *)

Lemma filter_filter {A : Type} (p q : A -> bool) l :
  filter p (filter q l) = filter (fun x => q x && p x) l.
Proof.
  induction l as [|a l IH]; simpl; [reflexivity|].
  destruct (q a); simpl; [destruct (p a)|]; now rewrite IH.
Qed.

Section ValueColumns.

Variable parse : string -> option timestamp.

(** X5.  Without a request, the value columns are exactly the numeric
    columns of the returned table other than the time column, each once,
    in the order of the table. *)
Theorem prepare_data_auto_columns f cols df tc vcs :
  truthy cols = false ->
  prepare_data parse f cols = Ok (df, tc, vcs) ->
  vcs = filter (fun c => negb (String.eqb c tc)
                         && match lookup c (df_cols df) with
                            | Some s => is_numeric_dtype s
                            | None => false
                            end) (columns df)
  /\ (forall c, In c vcs <->
        In c (columns df) /\ c <> tc
        /\ exists s, lookup c (df_cols df) = Some s
                     /\ is_numeric_dtype s = true).
Proof.
  intros T H. apply prepare_data_inv in H. destruct H as (_ & Hres & _).
  assert (E : vcs = filter (fun c => negb (String.eqb c tc)
                         && match lookup c (df_cols df) with
                            | Some s => is_numeric_dtype s
                            | None => false
                            end) (columns df)).
  { rewrite <- filter_filter.
    destruct cols as [[|? ?]|]; try discriminate T; simpl in Hres;
      now injection Hres as <-. }
  split; [exact E|]. intros c. rewrite E, filter_In, andb_true_iff.
  rewrite negb_true_iff, String.eqb_neq.
  destruct (lookup c (df_cols df)) as [s|].
  - split.
    + intros (Hin & Hne & Hs). eauto.
    + intros (Hin & Hne & s' & [= <-] & Hs). auto.
  - split.
    + intros (_ & _ & Hf). discriminate.
    + intros (_ & _ & s' & Hf & _). discriminate.
Qed.

(** X6.  In a table without a timestamp column, a leftmost column of
    integers or of floats is taken for the time column, whatever it and the
    columns after it hold. *)
Theorem detect_time_column_numeric_first df n s rest :
  df_cols df = Column n s :: rest ->
  dtype_of s = DInt64 \/ dtype_of s = DFloat64 ->
  (forall c, In c rest -> is_datetime64 (cdata c) = false) ->
  detect_time_column parse df = Some n.
Proof.
  intros Hcols Hs Hrest. unfold detect_time_column.
  assert (D : datetime_cols df = []).
  { apply datetime_cols_nil_iff. rewrite Hcols. intros c [<-|Hin]; auto.
    simpl. unfold is_datetime64. destruct Hs as [-> | ->]; reflexivity. }
  rewrite D. unfold columns. rewrite Hcols. cbn [map cname scan_columns].
  rewrite Hcols, lookup_cons. cbn [cname cdata]. rewrite String.eqb_refl.
  destruct s; simpl in Hs; destruct Hs as [Hs|Hs]; try discriminate Hs;
    reflexivity.
Qed.

(** X7.  A CSV with a single column of integers or floats is not given a
    synthesized time axis: the column itself is taken for the time column,
    nothing is left to plot, and without a request the preparation ends
    with the error of no numeric column. *)
Theorem prepare_data_single_numeric_column f idx n s :
  f_exists f = true ->
  lower (f_suffix f) = ".csv"%string ->
  f_read_csv f = Ok (Frame idx [Column n s]) ->
  dtype_of s = DInt64 \/ dtype_of s = DFloat64 ->
  prepare_data parse f None
  = Raise (Exn ValueError "No numeric columns found to plot").
Proof.
  intros Hex Hsuf Hread Hs. set (df := Frame idx [Column n s]).
  assert (Hdet : detect_time_column parse df = Some n).
  { apply (detect_time_column_numeric_first _ n s []);
      [reflexivity|assumption|intros c []]. }
  assert (Hl : loaded parse f df (Some n)).
  { split; [assumption|]. exists df. unfold load. rewrite Hsuf. simpl.
    split; [assumption|]. unfold detect_with_fallback. now rewrite Hdet. }
  destruct (loaded_prepared parse f df (Some n) Hl) as [Hprep _].
  assert (Ht : exists ts, to_datetime parse s = Ok (DatetimeSeries ts)).
  { destruct s; simpl in Hs; destruct Hs as [Hs|Hs]; try discriminate Hs;
      simpl; eauto. }
  destruct Ht as [ts Ht].
  set (d := dropna_all_columns (setitem df n (DatetimeSeries ts))).
  assert (Hclean : clean_table parse df (Some n) = Ok (d, n)).
  { unfold clean_table, resolve_time_column. cbn [bind].
    unfold coerce_time_column, getitem. unfold df at 1. cbn [df_cols].
    rewrite lookup_cons. cbn [cname cdata]. rewrite String.eqb_refl.
    cbn [bind]. rewrite Ht. reflexivity. }
  assert (Hnames : forall c, In c (columns d) -> c = n).
  { unfold columns. intros c Hc. apply in_map_iff in Hc.
    destruct Hc as (col & <- & Hcol). apply dropna_columns in Hcol.
    destruct Hcol as [Hcol _].
    destruct (string_dec (cname col) n) as [|Hne]; [assumption|].
    apply (setitem_others df n _ col) in Hcol; [|assumption].
    destruct Hcol as [<-|[]]. reflexivity. }
  assert (Hnone : filter (fun col => negb (String.eqb col n)) (columns d)
                  = []).
  { induction (columns d) as [|c l IH]; [reflexivity|]. simpl.
    rewrite (Hnames c (or_introl eq_refl)), String.eqb_refl. simpl.
    apply IH. intros c' Hin. apply Hnames. now right. }
  unfold prepare_data. rewrite Hprep, Hclean. cbn [bind].
  unfold select_value_columns, resolve_value_columns. rewrite Hnone.
  reflexivity.
Qed.

Lemma no_time_column_error f cols df :
  loaded parse f df None ->
  is_datetime_index (df_index df) = false ->
  List.length (numeric_cols df) <> 1%nat ->
  prepare_data parse f cols
  = Raise (Exn ValueError "No datetime column found in the file").
Proof.
  intros Hl Hidx Hnum. destruct (loaded_prepared parse f df None Hl)
    as [Hprep _].
  unfold prepare_data. rewrite Hprep.
  unfold clean_table, resolve_time_column. rewrite Hidx.
  destruct (numeric_cols df) as [|x [|y l]]; try reflexivity.
  now elim Hnum.
Qed.

(** X8.  When no time column was detected, the index is not a timestamp
    index and the table does not have exactly one numeric column, the
    preparation ends with the error of a missing time column, whatever
    columns were asked for. *)
Theorem prepare_data_no_time_column f cols df :
  loaded parse f df None ->
  is_datetime_index (df_index df) = false ->
  List.length (numeric_cols df) <> 1%nat ->
  prepare_data parse f cols
  = Raise (Exn ValueError "No datetime column found in the file").
Proof. exact (no_time_column_error f cols df). Qed.



End ValueColumns.

(** X5 at [sales.csv]. *)
Lemma prepare_data_auto_columns_witness :
  prepare_data parse_iso_date sales_csv None
    = Ok (sales_prepared, "date", ["load"])
  /\ (In "load" ["load"] <->
      In "load" (columns sales_prepared) /\ "load" <> "date"
      /\ exists s, lookup "load" (df_cols sales_prepared) = Some s
                   /\ is_numeric_dtype s = true)%string.
Proof.
  assert (H : prepare_data parse_iso_date sales_csv None
              = Ok (sales_prepared, "date", ["load"])) by reflexivity.
  split; [exact H|].
  apply (prepare_data_auto_columns parse_iso_date sales_csv None
           sales_prepared "date" ["load"] eq_refl H).
Defined.

(** X6 at [curve.csv]. *)
Lemma detect_time_column_numeric_first_witness :
  detect_time_column parse_iso_date curve_table = Some "kW".
Proof.
  apply (detect_time_column_numeric_first parse_iso_date curve_table "kW"
           (Float64Series [Some (1 # 2)%Q; Some (3 # 4)%Q; None]) []).
  - reflexivity.
  - right. reflexivity.
  - intros c [].
Defined.

(** X7 at [curve.csv]. *)
Lemma prepare_data_single_numeric_column_witness :
  prepare_data parse_iso_date curve_csv None
  = Raise (Exn ValueError "No numeric columns found to plot").
Proof.
  apply (prepare_data_single_numeric_column parse_iso_date curve_csv
           (RangeIndex 3) "kW"
           (Float64Series [Some (1 # 2)%Q; Some (3 # 4)%Q; None])).
  - reflexivity.
  - reflexivity.
  - reflexivity.
  - right. reflexivity.
Defined.

(** X8 at [words.csv], with and without a request. *)
Lemma prepare_data_no_time_column_witness :
  loaded parse_iso_date words_csv words_table None
  /\ prepare_data parse_iso_date words_csv (Some ["city"])
     = Raise (Exn ValueError "No datetime column found in the file").
Proof.
  assert (Hl : loaded parse_iso_date words_csv words_table None).
  { split; [reflexivity|]. exists words_table. split; reflexivity. }
  split; [exact Hl|].
  apply (prepare_data_no_time_column parse_iso_date words_csv
           (Some ["city"]) words_table Hl).
  - reflexivity.
  - discriminate.
Defined.

(* ================================================================== *)
(** * Further properties of the chart builder *)

Lemma day_of_week_step_state tc hy d r d1 :
  day_of_week_step tc hy d = (r, d1) ->
  forall n, n <> "_day_of_week"%string ->
            lookup n (df_cols d1) = lookup n (df_cols d).
Proof.
  unfold day_of_week_step. destruct hy.
  - destruct (day_name_series d tc) as [names|e].
    + destruct (values1 _ _); intros H; inversion H; subst;
        intros n Hn; now apply lookup_setitem_other.
    + intros H. now inversion H.
  - intros H. now inversion H.
Qed.

Lemma plot_series_data df tc hy idx col d t d' :
  (forall n, n <> "_day_of_week"%string ->
             lookup n (df_cols d) = lookup n (df_cols df)) ->
  plot_series tc hy idx col d = (Ok t, d') ->
  tr_name t = col
  /\ drawn_from df tc t
  /\ (forall n, n <> "_day_of_week"%string ->
                lookup n (df_cols d') = lookup n (df_cols df)).
Proof.
  intros Hinv. unfold plot_series.
  destruct (day_of_week_step tc hy d) as [[[cd line]|e] d1] eqn:S;
    [|discriminate].
  pose proof (day_of_week_step_state tc hy d _ d1 S) as H1.
  unfold getitem.
  destruct (lookup tc (df_cols d1)) as [x|] eqn:Lx; [|discriminate].
  destruct (lookup col (df_cols d1)) as [y|] eqn:Ly; [|discriminate].
  intros H. inversion H; subst. split; [reflexivity|]. split.
  - unfold drawn_from. cbn [tr_mode tr_line_width tr_x tr_y tr_name].
    repeat split.
    + intros Hn. now rewrite <- Hinv, <- H1.
    + intros Hn. now rewrite <- Hinv, <- H1.
  - intros n Hn. now rewrite H1, Hinv.
Qed.

Lemma plot_loop_data df tc hy vcs :
  forall idx d traces d',
    (forall n, n <> "_day_of_week"%string ->
               lookup n (df_cols d) = lookup n (df_cols df)) ->
    plot_loop tc hy idx vcs d = (Ok traces, d') ->
    Forall (drawn_from df tc) traces
    /\ (forall n, n <> "_day_of_week"%string ->
                  lookup n (df_cols d') = lookup n (df_cols df)).
Proof.
  induction vcs as [|col rest IH]; intros idx d traces d' Hinv; simpl.
  - intros H. inversion H; subst. split; [constructor|assumption].
  - destruct (plot_series tc hy idx col d) as [[t|e] d1] eqn:P;
      [|discriminate].
    destruct (plot_series_data df tc hy idx col d t d1 Hinv P)
      as (_ & Ht & Hinv1).
    destruct (plot_loop tc hy (S idx) rest d1) as [[tr|e] d2] eqn:R;
      [|discriminate].
    intros H. inversion H; subst.
    destruct (IH (S idx) d1 tr d' Hinv1 R) as [Htr Hinv2].
    split; [constructor; assumption|assumption].
Qed.

(** X9.  Every series of a chart the builder returns is a line of width
    2.5 drawn from the table as it was handed in: its x values are the time
    column and its y values the column it is named after (names other than
    [_day_of_week]); and the builder leaves every column of another name
    than [_day_of_week] as it was. *)
Theorem create_plot_data tc vcs df fig df' :
  create_plot tc vcs df = (Ok fig, df') ->
  (forall t, In t (fig_data fig) -> drawn_from df tc t)
  /\ (forall n, n <> "_day_of_week"%string ->
                lookup n (df_cols df') = lookup n (df_cols df)).
Proof.
  intros H. apply create_plot_inv in H. destruct H as (ts & _ & P & _).
  destruct (plot_loop_data df tc _ vcs 0%nat df (fig_data fig) df'
              (fun n _ => eq_refl) P) as [Hall Hinv].
  split; [|assumption]. now apply Forall_forall.
Qed.

(** X9 at the table prepared from [sales.csv]. *)
Lemma create_plot_data_witness :
  exists fig df',
    create_plot "date" ["load"] sales_prepared = (Ok fig, df')
    /\ map tr_x (fig_data fig) = [DatetimeSeries sales_dates]
    /\ forall t, In t (fig_data fig) -> drawn_from sales_prepared "date" t.
Proof.
  destruct (create_plot "date" ["load"] sales_prepared)
    as [[fig|e] df'] eqn:E; [|discriminate E].
  exists fig, df'. split; [reflexivity|].
  split; [injection E as <- _; reflexivity|].
  apply (create_plot_data "date" ["load"] sales_prepared fig df' E).
Defined.




(** X11.  When the time column is not in the table, or is not a timestamp
    column, the builder fails before it touches the table: with the
    [KeyError] of the time column, or with the error of the [.dt]
    accessor. *)
Theorem create_plot_bad_time_column tc vcs df :
  match lookup tc (df_cols df) with
  | Some s => is_datetime64 s
  | None => false
  end = false ->
  create_plot tc vcs df
  = (Raise match lookup tc (df_cols df) with
           | None => Exn KeyError ("'" ++ tc ++ "'")%string
           | Some _ =>
               Exn AttributeError
                 "Can only use .dt accessor with datetimelike values"
           end, df).
Proof.
  unfold create_plot, has_year_of, getitem.
  destruct (lookup tc (df_cols df)) as [s|]; [|reflexivity].
  intros Hs. destruct s; try discriminate Hs; reflexivity.
Qed.

(** X11 on the table that is left of [gaps.csv]. *)
Lemma create_plot_bad_time_column_witness :
  create_plot "date" ["v"]
    (Frame (RangeIndex 2) [Column "v" (Int64Series [1; 2])])
  = (Raise (Exn KeyError "'date'"),
     Frame (RangeIndex 2) [Column "v" (Int64Series [1; 2])])
  /\ fst (create_plot "v" ["v"]
            (Frame (RangeIndex 2) [Column "v" (Int64Series [1; 2])]))
     = Raise (Exn AttributeError
                "Can only use .dt accessor with datetimelike values").
Proof.
  split.
  - apply (create_plot_bad_time_column "date" ["v"]
             (Frame (RangeIndex 2) [Column "v" (Int64Series [1; 2])])).
    reflexivity.
  - rewrite (create_plot_bad_time_column "v" ["v"]
               (Frame (RangeIndex 2) [Column "v" (Int64Series [1; 2])]));
      reflexivity.
Defined.

(* ================================================================== *)
(** * The preparer and the builder together, and the command line *)

Section Pipeline.

Variable parse : string -> option timestamp.

(** X12.  On what a preparation returns, for a time column not named
    [_day_of_week]: the builder returns a chart exactly when the time column
    is still in the table, and then every series carries its days of the
    week (the branch without them is never taken); when the time column was
    pruned the builder fails with its [KeyError]. *)
Theorem prepared_table_plots f cols df tcol df' tc vcs :
  loaded parse f df tcol ->
  NoDup (columns df) ->
  prepare_data parse f cols = Ok (df', tc, vcs) ->
  tc <> "_day_of_week"%string ->
  (In tc (columns df') ->
   exists fig ts,
     lookup tc (df_cols df') = Some (DatetimeSeries ts)
     /\ create_plot tc vcs df'
        = (Ok fig, setitem df' "_day_of_week" (day_labels ts))
     /\ forall t, In t (fig_data fig) ->
                  tr_customdata t = Some (day_rows ts))
  /\ (~ In tc (columns df') ->
      create_plot tc vcs df'
      = (Raise (Exn KeyError ("'" ++ tc ++ "'")%string), df')).
Proof.
  intros Hl Hnd H Hne.
  pose proof (prepared_time_column_state parse f cols df tcol df' tc vcs
                Hl Hnd H) as Hstate.
  apply prepare_data_inv in H. destruct H as (_ & Hres & Hvcs).
  split.
  - intros Hin. destruct Hstate as [(ts & L & Hy)|Hno]; [|contradiction].
    destruct (create_plot_runs tc vcs df' ts L
                (resolve_value_columns_in df' tc cols vcs Hres) Hne)
      as [fig Hrun].
    assert (Hnil : negb (is_nil vcs) = true)
      by (destruct vcs; [now elim Hvcs|reflexivity]).
    rewrite Hy, Hnil in Hrun. cbn [andb] in Hrun.
    exists fig, ts. split; [assumption|]. split; [assumption|].
    destruct (create_plot_inv tc vcs df' fig _ Hrun) as (ts' & L' & P & _).
    rewrite L in L'. injection L' as <-.
    destruct (plot_loop_shape tc ts _ vcs 0%nat df' (fig_data fig) _ L P)
      as (_ & _ & Hall).
    rewrite Forall_forall in Hall. intros t Ht.
    destruct (Hall t Ht) as [Hc _]. now rewrite Hy in Hc.
  - intros Hno. apply lookup_none_iff in Hno.
    unfold create_plot, has_year_of, getitem. now rewrite Hno.
Qed.

(** X13.  A run that ends with status 0 has printed, on standard output
    only, the time column, the plotted columns and the number of rows of
    the prepared table, then put out one chart and said so: the chart is
    written to the path of [-o] and not shown when that option is given,
    shown and not written otherwise.  The chart is the builder's, under the
    title of [-t] when there is one. *)
Theorem main_success w a :
  exit_code (main parse w a) = 0 ->
  exists df tc vcs fig0 df1 out said,
    prepare_data parse (w_file w)
      (if is_nil (a_columns a) then None else Some (a_columns a))
    = Ok (df, tc, vcs)
    /\ create_plot tc vcs df = (Ok fig0, df1)
    /\ events (main parse w a)
       = [ Stdout ("Time column: " ++ tc)%string;
           Stdout ("Plotting columns: " ++ join ", " vcs)%string;
           Stdout ("Data points: " ++ str_of_nat (len df))%string;
           out; Stdout said ]
    /\ let fig := match nonempty (a_title a) with
                  | Some t => update_title fig0 t
                  | None => fig0
                  end in
       match nonempty (a_output a) with
       | Some path =>
           out = WriteHtml path fig
           /\ said = ("Plot saved to: " ++ path)%string
       | None => out = Show fig /\ said = "Plot opened in browser"%string
       end.
Proof.
  unfold main. destruct (f_exists (w_file w)); simpl; [|discriminate].
  unfold run.
  destruct (prepare_data parse (w_file w) _) as [[[df tc] vcs]|e0] eqn:P;
    [|discriminate].
  destruct (create_plot tc vcs df) as [[fig0|e1] df1] eqn:C; [|discriminate].
  destruct (nonempty (a_output a)) as [path|].
  - destruct (w_write_html w path _); simpl; [|discriminate].
    intros _. exists df, tc, vcs, fig0, df1. do 2 eexists.
    split; [reflexivity|]. split; [exact C|]. split; [reflexivity|].
    cbv zeta. split; reflexivity.
  - destruct (w_show w _); simpl; [|discriminate].
    intros _. exists df, tc, vcs, fig0, df1. do 2 eexists.
    split; [reflexivity|]. split; [exact C|]. split; [reflexivity|].
    cbv zeta. split; reflexivity.
Qed.

End Pipeline.

(** X12 at [sales.csv]. *)
Lemma prepared_table_plots_witness :
  loaded parse_iso_date sales_csv sales_table (Some "date")
  /\ exists fig ts,
       lookup "date" (df_cols sales_prepared) = Some (DatetimeSeries ts)
       /\ create_plot "date" ["load"] sales_prepared
          = (Ok fig, setitem sales_prepared "_day_of_week" (day_labels ts))
       /\ forall t, In t (fig_data fig) ->
                    tr_customdata t = Some (day_rows ts).
Proof.
  assert (Hl : loaded parse_iso_date sales_csv sales_table (Some "date")).
  { split; [reflexivity|]. exists sales_table. split; reflexivity. }
  split; [exact Hl|].
  apply (prepared_table_plots parse_iso_date sales_csv None sales_table
           (Some "date") sales_prepared "date" ["load"] Hl).
  - repeat constructor; simpl; intuition discriminate.
  - reflexivity.
  - discriminate.
  - simpl. tauto.
Defined.

(** X13 at [sales.csv], written to [out.html] under a title. *)
Lemma main_success_witness :
  exists fig,
    events (main parse_iso_date sales_world
              (Args "sales.csv" [] (Some "out.html") (Some "Sales")))
    = [ Stdout "Time column: date";
        Stdout "Plotting columns: load";
        Stdout "Data points: 2";
        WriteHtml "out.html" fig;
        Stdout "Plot saved to: out.html" ]
    /\ ly_title (fig_layout fig) = "Sales"%string.
Proof.
  destruct (main_success parse_iso_date sales_world
              (Args "sales.csv" [] (Some "out.html") (Some "Sales"))
              eq_refl)
    as (df & tc & vcs & fig0 & df1 & out & said & Hp & Hc & Hev & Hout).
  simpl in Hp. injection Hp as <- <- <-.
  simpl in Hout. destruct Hout as [-> ->].
  exists (update_title fig0 "Sales"). split; [exact Hev|reflexivity].
Defined.

